(** * AI travel assistant backend: the chat and history endpoints of
    [server.py], embedded as pure functions over an explicit world.

    The world holds the [chat_messages] collection and a trace of the
    external calls a request makes (store writes and reads, the completion
    gateway, the error log).  Everything the handlers cannot decide by
    themselves (random bytes for identifiers, the clock, faults of the
    store, what the completion provider answers) comes from an [Env]. *)

From Stdlib Require Import List String Ascii ZArith NArith Lia Bool.
From Stdlib Require Import Sorting.Sorted Sorting.Permutation.
From Stdlib Require Import Numbers.DecimalString.
Import ListNotations.

Local Open Scope string_scope.
Local Open Scope list_scope.
Local Open Scope Z_scope.

(** ** Python values used by the handlers *)

Module Py.

(** [x or default] on an [Optional[str]]: [None] and the empty string are
    falsy. *)
Definition truthy_str (x : option string) : bool :=
  match x with
  | None => false
  | Some s => negb (String.eqb s "")
  end.

(** Truthiness of an [Optional[int]]: [None] and [0] are falsy. *)
Definition truthy_int (x : option Z) : bool :=
  match x with
  | None => false
  | Some n => negb (n =? 0)
  end.

Definition or_str (x : option string) (default : string) : string :=
  match x with
  | Some s => if String.eqb s "" then default else s
  | None => default
  end.

Definition or_int (x : option Z) (default : Z) : Z :=
  match x with
  | Some n => if n =? 0 then default else n
  | None => default
  end.

(** [str(n)] for an [int]: decimal digits, a leading minus sign for
    negative numbers. *)
Definition str_int (n : Z) : string := NilZero.string_of_int (Z.to_int n).

Definition newline : string := String (ascii_of_nat 10) EmptyString.

(** *** [uuid.uuid4()] and its [str] *)

Definition hex_digit (d : N) : ascii :=
  match d with
  | 0%N => "0" | 1%N => "1" | 2%N => "2" | 3%N => "3"
  | 4%N => "4" | 5%N => "5" | 6%N => "6" | 7%N => "7"
  | 8%N => "8" | 9%N => "9" | 10%N => "a" | 11%N => "b"
  | 12%N => "c" | 13%N => "d" | 14%N => "e" | _ => "f"
  end%char.

(** ['%0<digits>x' % v], for [v < 16 ^ digits]. *)
Fixpoint hex_fixed (digits : nat) (v : N) : string :=
  match digits with
  | O => ""
  | S d => hex_fixed d (v / 16) ++ String (hex_digit (v mod 16)) ""
  end%string.

(** [uuid4()]: sixteen random bytes as an integer, with the RFC 4122
    variant and the version number 4 written over their bits. *)
Definition uuid4 (urandom : N) : N :=
  let int := (urandom mod 2 ^ 128)%N in
  let int := N.ldiff int (N.shiftl 0xc000 48) in
  let int := N.lor int (N.shiftl 0x8000 48) in
  let int := N.ldiff int (N.shiftl 0xf000 64) in
  N.lor int (N.shiftl 4 76).

(** [str(u)] for a UUID: 32 hexadecimal digits grouped 8-4-4-4-12. *)
Definition str_uuid (u : N) : string :=
  let hex := hex_fixed 32 u in
  (substring 0 8 hex ++ "-" ++ substring 8 4 hex ++ "-" ++
   substring 12 4 hex ++ "-" ++ substring 16 4 hex ++ "-" ++
   substring 20 12 hex)%string.

End Py.

(** ** Models (the pydantic classes of the source) *)

Record ChatMessage := {
  id : string;
  session_id : string;
  message : string;
  sender : string;            (* 'user' or 'assistant' *)
  timestamp : Z
}.

Record ChatRequest := {
  req_message : string;
  req_session_id : option string;
  req_budget : option string;
  req_location : option string;
  req_duration : option string;
  req_travelers : option Z
}.

Record ChatResponse := {
  resp_message : string;
  resp_session_id : string;
  resp_image_url : option string
}.

(** One entry of the prompt sent to the completion provider. *)
Record PromptEntry := {
  role : string;
  content : string
}.

(** One field of a JSON body as the validation of its declared type sees
    it: the key is missing or [null]; or it carries a value of the type
    (after whatever conversion the type allows); or it carries a value the
    type refuses, such as the text "two" where an integer is declared. *)
Inductive Field (A : Type) :=
| Absent
| Value (a : A)
| Refused.
Arguments Absent {A}.
Arguments Value {A} a.
Arguments Refused {A}.

(** The JSON body of [POST /api/chat] before validation. *)
Record ChatBody := {
  body_message : Field string;
  body_session_id : Field string;
  body_budget : Field string;
  body_location : Field string;
  body_duration : Field string;
  body_travelers : Field Z
}.

(** An [Optional] field with default [None]: the outer [None] is a
    validation error. *)
Definition optional {A : Type} (f : Field A) : option (option A) :=
  match f with
  | Absent => Some None
  | Value a => Some (Some a)
  | Refused => None
  end.

(** Validation against [ChatRequest]: [message: str] is required and
    carries no length constraint; the others are optional and default to
    [None]; a value refused by the type of any field fails the whole body. *)
Definition parse_ChatRequest (b : ChatBody) : option ChatRequest :=
  match body_message b,
        optional (body_session_id b), optional (body_budget b),
        optional (body_location b), optional (body_duration b),
        optional (body_travelers b) with
  | Value m, Some sid, Some budget, Some location, Some duration,
    Some travelers =>
      Some {| req_message := m;
              req_session_id := sid;
              req_budget := budget;
              req_location := location;
              req_duration := duration;
              req_travelers := travelers |}
  | _, _, _, _, _, _ => None
  end.

(** ** Exceptions, events and the world *)

Inductive Exn :=
| PyMongoError (msg : string)          (* store unreachable, write failure *)
| OpenAIError (msg : string)           (* the provider call failed *)
| IndexError (msg : string)            (* [choices[0]] on an empty list *)
| ValidationError (msg : string)       (* pydantic refused a field value *)
| HTTPException (status_code : Z) (detail : string).

(** [str(e)] *)
Definition str_exn (e : Exn) : string :=
  match e with
  | PyMongoError msg => msg
  | OpenAIError msg => msg
  | IndexError msg => msg
  | ValidationError msg => msg
  | HTTPException _ detail => detail
  end.

Inductive Event :=
| EvInsert (doc : ChatMessage)                            (* insert_one *)
| EvFind (sid : string) (limit : nat)                     (* find/sort/to_list *)
| EvCompletion (model : string) (messages : list PromptEntry)
| EvLogError (line : string).                             (* logger.error *)

Record World := {
  chat_messages : list ChatMessage;     (* in insertion order *)
  trace : list Event                    (* oldest first *)
}.

Definition empty_world : World := {| chat_messages := []; trace := [] |}.

(** What a request draws from outside the handler. *)
Record Env := {
  urandom_session : N;
  urandom_user : N;
  urandom_ai : N;
  now_user : Z;
  now_ai : Z;
  insert_user_fault : option string;
  find_fault : option string;
  insert_ai_fault : option string;
  (** [openai_client.chat.completions.create]: it raises, or answers with
      the [message.content] of each choice ([None] when the provider sent
      no text). *)
  completions_create : string -> list PromptEntry -> Exn + list (option string);
  validation_text : string
}.

(** ** A state monad with exceptions; the state survives a raise *)

Inductive Outcome (A : Type) :=
| Returned (a : A)
| Raised (e : Exn).
Arguments Returned {A} a.
Arguments Raised {A} e.

Definition M (A : Type) : Type := World -> Outcome A * World.

Definition ret {A} (a : A) : M A := fun w => (Returned a, w).

Definition raise {A} (e : Exn) : M A := fun w => (Raised e, w).

Definition bind {A B} (m : M A) (k : A -> M B) : M B :=
  fun w =>
    match m w with
    | (Returned a, w') => k a w'
    | (Raised e, w') => (Raised e, w')
    end.

Definition try_except {A} (body : M A) (handler : Exn -> M A) : M A :=
  fun w =>
    match body w with
    | (Returned a, w') => (Returned a, w')
    | (Raised e, w') => handler e w'
    end.

Definition emit (ev : Event) : M unit :=
  fun w => (Returned tt,
            {| chat_messages := chat_messages w; trace := trace w ++ [ev] |}).

Declare Scope py_scope.
Delimit Scope py_scope with py.
Notation "x <- m ;; k" := (bind m (fun x => k))
  (at level 100, m at next level, right associativity) : py_scope.
Notation "m ;;; k" := (bind m (fun _ => k))
  (at level 100, right associativity) : py_scope.
Local Open Scope py_scope.

(** ** The message store: the [chat_messages] collection *)

Module Db.

Fixpoint insert_by_timestamp (d : ChatMessage) (l : list ChatMessage)
  : list ChatMessage :=
  match l with
  | [] => [d]
  | x :: r =>
      if timestamp d <=? timestamp x then d :: l
      else x :: insert_by_timestamp d r
  end.

(** [.sort("timestamp", 1)]: ascending; documents with equal timestamps
    stay in insertion order. *)
Definition sort_timestamp (l : list ChatMessage) : list ChatMessage :=
  fold_right insert_by_timestamp [] l.

Definition of_session (sid : string) (docs : list ChatMessage)
  : list ChatMessage :=
  filter (fun d => String.eqb (session_id d) sid) docs.

(** [find({"session_id": sid}).sort("timestamp", 1).to_list(length=n)] on
    the documents themselves: the first [n] in ascending order. *)
Definition query (sid : string) (n : nat) (docs : list ChatMessage)
  : list ChatMessage :=
  firstn n (sort_timestamp (of_session sid docs)).

Definition insert_one (fault : option string) (doc : ChatMessage) : M unit :=
  emit (EvInsert doc) ;;;
  match fault with
  | Some msg => raise (PyMongoError msg)
  | None =>
      fun w => (Returned tt,
                {| chat_messages := chat_messages w ++ [doc];
                   trace := trace w |})
  end.

Definition find_sorted (fault : option string) (sid : string) (n : nat)
  : M (list ChatMessage) :=
  emit (EvFind sid n) ;;;
  match fault with
  | Some msg => raise (PyMongoError msg)
  | None => fun w => (Returned (query sid n (chat_messages w)), w)
  end.

End Db.

(** ** Routes *)

(** The constructor [ChatMessage(session_id=..., message=..., sender=...)]:
    [id] and [timestamp] come from their default factories; a [message]
    that is [None] fails validation. *)
Definition new_ChatMessage (urandom : N) (now : Z) (text : string)
    (sid : string) (msg : option string) (snd : string) : M ChatMessage :=
  match msg with
  | None => raise (ValidationError text)
  | Some m =>
      ret {| id := Py.str_uuid (Py.uuid4 urandom);
             session_id := sid;
             message := m;
             sender := snd;
             timestamp := now |}
  end.

Definition system_instruction : string :=
  "You are a helpful travel assistant. Always give unique, personalized plans.".

Definition indent : string := "            ".

(** The f-string of the trip context. *)
Definition trip_context (request : ChatRequest) : string :=
  (Py.newline ++
   indent ++ "Trip details:" ++ Py.newline ++
   indent ++ "- Location: " ++ Py.or_str (req_location request) "not specified" ++ Py.newline ++
   indent ++ "- Duration: " ++ Py.or_str (req_duration request) "not specified" ++ Py.newline ++
   indent ++ "- Budget: " ++ Py.or_str (req_budget request) "not specified" ++ Py.newline ++
   indent ++ "- Travelers: " ++ Py.str_int (Py.or_int (req_travelers request) 1) ++ Py.newline ++
   indent)%string.

Definition has_trip_context (request : ChatRequest) : bool :=
  Py.truthy_str (req_location request) || Py.truthy_str (req_duration request)
  || Py.truthy_str (req_budget request) || Py.truthy_int (req_travelers request).

Definition entry_of (msg : ChatMessage) : PromptEntry :=
  {| role := sender msg; content := message msg |}.

(** The prompt built between the store read and the provider call. *)
Definition build_messages (request : ChatRequest) (history : list ChatMessage)
  : list PromptEntry :=
  let messages := map entry_of history in
  let messages :=
    {| role := "system"; content := system_instruction |} :: messages in
  if has_trip_context request
  then messages ++ [{| role := "system"; content := trip_context request |}]
  else messages.

Definition chat_session_id (env : Env) (request : ChatRequest) : string :=
  Py.or_str (req_session_id request) (Py.str_uuid (Py.uuid4 (urandom_session env))).

(** [choices[0].message.content] *)
Definition first_choice (choices : list (option string)) : M (option string) :=
  match choices with
  | [] => raise (IndexError "list index out of range")
  | c :: _ => ret c
  end.

Definition create_completion (env : Env) (model : string)
    (messages : list PromptEntry) : M (list (option string)) :=
  emit (EvCompletion model messages) ;;;
  match completions_create env model messages with
  | inl e => raise e
  | inr choices => ret choices
  end.

(** The body of the [try] block of [chat_with_ai]. *)
Definition chat_try (env : Env) (request : ChatRequest) : M ChatResponse :=
  let session_id := chat_session_id env request in
  (* Save user message *)
  user_message_obj <-
    new_ChatMessage (urandom_user env) (now_user env) (validation_text env)
      session_id (Some (req_message request)) "user" ;;
  Db.insert_one (insert_user_fault env) user_message_obj ;;;
  (* Fetch last 5 messages for context *)
  history <- Db.find_sorted (find_fault env) session_id 5 ;;
  let messages := build_messages request history in
  (* Call OpenAI *)
  completion <- create_completion env "gpt-4o-mini" messages ;;
  response <- first_choice completion ;;
  (* Save AI message *)
  ai_message_obj <-
    new_ChatMessage (urandom_ai env) (now_ai env) (validation_text env)
      session_id response "assistant" ;;
  Db.insert_one (insert_ai_fault env) ai_message_obj ;;;
  (* [response] is a string here: [ai_message_obj] holds it *)
  ret {| resp_message := message ai_message_obj;
         resp_session_id := session_id;
         resp_image_url := None |}.

(** Its [except Exception as e] clause. *)
Definition chat_except (e : Exn) : M ChatResponse :=
  (emit (EvLogError ("Chat error: " ++ str_exn e)) ;;;
   raise (HTTPException 500 ("Chat processing failed: " ++ str_exn e)))%string.

Definition chat_with_ai (env : Env) (request : ChatRequest) : M ChatResponse :=
  try_except (chat_try env request) chat_except.

Definition get_chat_history (env : Env) (session_id : string)
  : M (list ChatMessage) :=
  try_except
    (Db.find_sorted (find_fault env) session_id 100)
    (fun e =>
       emit (EvLogError ("Chat history error: " ++ str_exn e)) ;;;
       raise (HTTPException 500 "Failed to retrieve chat history"))%string.

(** ** The HTTP surface *)

Inductive Payload :=
| ChatJson (r : ChatResponse)
| HistoryJson (turns : list ChatMessage)
| DetailJson (detail : string)
| ValidationJson.

Record HttpResponse := {
  status : Z;
  payload : Payload
}.

Definition respond {A} (ok : A -> Payload) (r : Outcome A * World)
  : HttpResponse * World :=
  match r with
  | (Returned a, w) => ({| status := 200; payload := ok a |}, w)
  | (Raised (HTTPException code detail), w) =>
      ({| status := code; payload := DetailJson detail |}, w)
  | (Raised _, w) =>
      ({| status := 500; payload := DetailJson "Internal Server Error" |}, w)
  end.

(** [POST /api/chat]: a body that fails validation is answered 422 before
    the handler runs. *)
Definition post_chat (env : Env) (body : ChatBody) (w : World)
  : HttpResponse * World :=
  match parse_ChatRequest body with
  | None => ({| status := 422; payload := ValidationJson |}, w)
  | Some request => respond ChatJson (chat_with_ai env request w)
  end.

Fixpoint has_slash (s : string) : bool :=
  match s with
  | EmptyString => false
  | String c r => Ascii.eqb c "/" || has_slash r
  end.

(** What the path parameter [{session_id}] can bind: one segment of the
    path, not empty and without [/]. *)
Definition is_path_segment (s : string) : bool :=
  negb (String.eqb s "") && negb (has_slash s).

(** [GET /api/chat-history/{session_id}], for the path that follows
    [/api/chat-history/]: when it is not one segment no route matches, the
    handler does not run and the answer is 404. *)
Definition get_history (env : Env) (session_id : string) (w : World)
  : HttpResponse * World :=
  if is_path_segment session_id
  then respond HistoryJson (get_chat_history env session_id w)
  else ({| status := 404; payload := DetailJson "Not Found" |}, w).

(** ** Names for the parts of one chat request *)

Definition chat_model : string := "gpt-4o-mini".

(** The turn stored for the incoming message. *)
Definition user_turn (env : Env) (request : ChatRequest) : ChatMessage :=
  {| id := Py.str_uuid (Py.uuid4 (urandom_user env));
     session_id := chat_session_id env request;
     message := req_message request;
     sender := "user";
     timestamp := now_user env |}.

(** The turn stored for the provider's reply. *)
Definition assistant_turn (env : Env) (request : ChatRequest) (reply : string)
  : ChatMessage :=
  {| id := Py.str_uuid (Py.uuid4 (urandom_ai env));
     session_id := chat_session_id env request;
     message := reply;
     sender := "assistant";
     timestamp := now_ai env |}.

(** The stored turns read back for the prompt, once the user turn is in. *)
Definition context_window (env : Env) (request : ChatRequest) (w : World)
  : list ChatMessage :=
  Db.query (chat_session_id env request) 5
    (chat_messages w ++ [user_turn env request]).

(** The prompt handed to the provider. *)
Definition prompt (env : Env) (request : ChatRequest) (w : World)
  : list PromptEntry :=
  build_messages request (context_window env request w).

(** The prompts among the events of a trace. *)
Fixpoint prompts_of (tr : list Event) : list (list PromptEntry) :=
  match tr with
  | [] => []
  | EvCompletion _ messages :: r => messages :: prompts_of r
  | _ :: r => prompts_of r
  end.

(** The number of stored turns of the session when the prompt is built. *)
Definition stored_count (env : Env) (request : ChatRequest) (w : World) : nat :=
  List.length (Db.of_session (chat_session_id env request)
            (chat_messages w ++ [user_turn env request])).

Definition sender_ok (d : ChatMessage) : Prop :=
  sender d = "user"%string \/ sender d = "assistant"%string.

Definition role_of_turn (e : PromptEntry) : Prop :=
  role e = "user"%string \/ role e = "assistant"%string.

(** [needle] occurs in [text]. *)
Definition occurs_in (needle text : string) : Prop :=
  exists before after, text = (before ++ needle ++ after)%string.

Definition le_timestamp (a b : ChatMessage) : Prop := timestamp a <= timestamp b.

(** The worlds the server can be in: it starts with an empty collection and
    only the two endpoints touch it. *)
Inductive reachable : World -> Prop :=
| reach_start : reachable empty_world
| reach_chat env body w :
    reachable w -> reachable (snd (post_chat env body w))
| reach_history env sid w :
    reachable w -> reachable (snd (get_history env sid w)).

(** How far the [try] block of one request gets, read off the source line by
    line: each constructor is one place where it stops. *)
Inductive chat_run (env : Env) (request : ChatRequest) (w : World)
  : Outcome ChatResponse -> World -> Prop :=
| run_user_insert_fails msg :
    insert_user_fault env = Some msg ->
    chat_run env request w (Raised (PyMongoError msg))
      {| chat_messages := chat_messages w;
         trace := trace w ++ [EvInsert (user_turn env request)] |}
| run_find_fails msg :
    insert_user_fault env = None ->
    find_fault env = Some msg ->
    chat_run env request w (Raised (PyMongoError msg))
      {| chat_messages := chat_messages w ++ [user_turn env request];
         trace := trace w ++ [EvInsert (user_turn env request);
                              EvFind (chat_session_id env request) 5] |}
| run_gateway_fails e :
    insert_user_fault env = None ->
    find_fault env = None ->
    completions_create env chat_model (prompt env request w) = inl e ->
    chat_run env request w (Raised e)
      {| chat_messages := chat_messages w ++ [user_turn env request];
         trace := trace w ++ [EvInsert (user_turn env request);
                              EvFind (chat_session_id env request) 5;
                              EvCompletion chat_model (prompt env request w)] |}
| run_no_choice :
    insert_user_fault env = None ->
    find_fault env = None ->
    completions_create env chat_model (prompt env request w) = inr [] ->
    chat_run env request w (Raised (IndexError "list index out of range"))
      {| chat_messages := chat_messages w ++ [user_turn env request];
         trace := trace w ++ [EvInsert (user_turn env request);
                              EvFind (chat_session_id env request) 5;
                              EvCompletion chat_model (prompt env request w)] |}
| run_no_content rest :
    insert_user_fault env = None ->
    find_fault env = None ->
    completions_create env chat_model (prompt env request w) = inr (None :: rest) ->
    chat_run env request w (Raised (ValidationError (validation_text env)))
      {| chat_messages := chat_messages w ++ [user_turn env request];
         trace := trace w ++ [EvInsert (user_turn env request);
                              EvFind (chat_session_id env request) 5;
                              EvCompletion chat_model (prompt env request w)] |}
| run_ai_insert_fails reply rest msg :
    insert_user_fault env = None ->
    find_fault env = None ->
    completions_create env chat_model (prompt env request w)
      = inr (Some reply :: rest) ->
    insert_ai_fault env = Some msg ->
    chat_run env request w (Raised (PyMongoError msg))
      {| chat_messages := chat_messages w ++ [user_turn env request];
         trace := trace w ++ [EvInsert (user_turn env request);
                              EvFind (chat_session_id env request) 5;
                              EvCompletion chat_model (prompt env request w);
                              EvInsert (assistant_turn env request reply)] |}
| run_responded reply rest :
    insert_user_fault env = None ->
    find_fault env = None ->
    completions_create env chat_model (prompt env request w)
      = inr (Some reply :: rest) ->
    insert_ai_fault env = None ->
    chat_run env request w
      (Returned {| resp_message := reply;
                   resp_session_id := chat_session_id env request;
                   resp_image_url := None |})
      {| chat_messages :=
           chat_messages w ++ [user_turn env request;
                               assistant_turn env request reply];
         trace := trace w ++ [EvInsert (user_turn env request);
                              EvFind (chat_session_id env request) 5;
                              EvCompletion chat_model (prompt env request w);
                              EvInsert (assistant_turn env request reply)] |}.

(** The world after the [except] clause has logged [cause]. *)
Definition logged (cause : Exn) (w0 : World) : World :=
  {| chat_messages := chat_messages w0;
     trace := trace w0 ++ [EvLogError ("Chat error: " ++ str_exn cause)] |}.

(** What the [except] clause raises for [cause]. *)
Definition chat_failure (cause : Exn) : Exn :=
  HTTPException 500 ("Chat processing failed: " ++ str_exn cause).

(** The four calls of a request that runs to the end, in source order. *)
Definition chat_steps (env : Env) (request : ChatRequest) (w : World)
    (reply : string) : list Event :=
  [EvInsert (user_turn env request);
   EvFind (chat_session_id env request) 5;
   EvCompletion chat_model (prompt env request w);
   EvInsert (assistant_turn env request reply)].

(** ** Scenarios used to run the handlers *)

Module Scenario.

(** Everything works; the provider answers [reply] at time [t + 1] to a
    message stored at time [t]. *)
Definition env_ok (t : Z) (reply : string) : Env :=
  {| urandom_session := 7;
     urandom_user := Z.to_N t;
     urandom_ai := Z.to_N (t + 1);
     now_user := t;
     now_ai := t + 1;
     insert_user_fault := None;
     find_fault := None;
     insert_ai_fault := None;
     completions_create := fun _ _ => inr [Some reply];
     validation_text := "1 validation error for ChatMessage" |}.

(** The store works and the provider call raises with [msg]. *)
Definition env_gateway_down (t : Z) (msg : string) : Env :=
  {| urandom_session := 7;
     urandom_user := Z.to_N t;
     urandom_ai := Z.to_N (t + 1);
     now_user := t;
     now_ai := t + 1;
     insert_user_fault := None;
     find_fault := None;
     insert_ai_fault := None;
     completions_create := fun _ _ => inl (OpenAIError msg);
     validation_text := "1 validation error for ChatMessage" |}.

Definition body_of (sid : option string) (text : string) : ChatBody :=
  {| body_message := Value text;
     body_session_id := match sid with
                        | Some s => Value s
                        | None => Absent
                        end;
     body_budget := Absent;
     body_location := Absent;
     body_duration := Absent;
     body_travelers := Absent |}.

Definition request_of (sid : option string) (text : string) : ChatRequest :=
  {| req_message := text;
     req_session_id := sid;
     req_budget := None;
     req_location := None;
     req_duration := None;
     req_travelers := None |}.

Definition question (k : nat) : string := "q" ++ Py.str_int (Z.of_nat k).
Definition answer (k : nat) : string := "a" ++ Py.str_int (Z.of_nat k).

(** The [k]-th exchange of session [s]: question at time [2k - 1], answer
    at time [2k]. *)
Definition env_exchange (k : nat) : Env :=
  env_ok (2 * Z.of_nat k - 1) (answer k).

(** The world after [n] answered questions in session [s]. *)
Fixpoint converse (n : nat) : World :=
  match n with
  | O => empty_world
  | S k =>
      snd (post_chat (env_exchange (S k)) (body_of (Some "s") (question (S k)))
             (converse k))
  end.

(** The body of the test suite's invalid chat request. *)
Definition body_empty : ChatBody := body_of (Some "") "".

(** A request whose location field is present and empty. *)
Definition request_blank_location : ChatRequest :=
  {| req_message := "Where to?";
     req_session_id := Some "s";
     req_budget := None;
     req_location := Some "";
     req_duration := None;
     req_travelers := None |}.

(** A request with a location and nothing else about the trip. *)
Definition request_paris : ChatRequest :=
  {| req_message := "Plan a trip to Paris for 5 days";
     req_session_id := None;
     req_budget := None;
     req_location := Some "Paris, France";
     req_duration := None;
     req_travelers := None |}.

End Scenario.

(** ** Strings as Python splits and strips them

    A string is the sequence of its characters, each below U+0100. *)

Module PyStr.

(** [c.isspace()] for a character below U+0100. *)
Definition is_space (c : ascii) : bool :=
  let n := nat_of_ascii c in
  ((9 <=? n) && (n <=? 13) || (28 <=? n) && (n <=? 32)
   || (n =? 133) || (n =? 160))%nat.

(** [s.lstrip()] *)
Fixpoint lstrip (s : string) : string :=
  match s with
  | EmptyString => EmptyString
  | String c r => if is_space c then lstrip r else s
  end.

(** [s.rstrip()] *)
Fixpoint rstrip (s : string) : string :=
  match s with
  | EmptyString => EmptyString
  | String c r =>
      match rstrip r with
      | EmptyString => if is_space c then EmptyString else String c EmptyString
      | kept => String c kept
      end
  end.

(** [s.strip()] *)
Definition strip (s : string) : string := rstrip (lstrip s).

(** [s.split(sep)] for a separator of one character: never the empty list,
    the empty string gives one empty piece. *)
Fixpoint split (sep : ascii) (s : string) : list string :=
  match s with
  | EmptyString => [EmptyString]
  | String c r =>
      if Ascii.eqb c sep then EmptyString :: split sep r
      else match split sep r with
           | piece :: pieces => String c piece :: pieces
           | [] => [String c EmptyString]
           end
  end.

Fixpoint count_char (c : ascii) (s : string) : nat :=
  match s with
  | EmptyString => O
  | String x r => ((if Ascii.eqb x c then 1 else 0) + count_char c r)%nat
  end.

Fixpoint has_space (s : string) : bool :=
  match s with
  | EmptyString => false
  | String c r => is_space c || has_space r
  end.

Definition first_char (s : string) : option ascii :=
  match s with
  | EmptyString => None
  | String c _ => Some c
  end.

Fixpoint last_char (s : string) : option ascii :=
  match s with
  | EmptyString => None
  | String c EmptyString => Some c
  | String _ r => last_char r
  end.

End PyStr.

(** ** Middleware setup: the allowed CORS origins *)

(** [os.getenv("CORS_ORIGINS", "*")] *)
Definition cors_origins (setting : option string) : string :=
  match setting with
  | Some value => value
  | None => "*"
  end.

(** [["*"] if origins == "*" else [o.strip() for o in origins.split(",")]] *)
Definition allowed_origins (origins : string) : list string :=
  if String.eqb origins "*" then ["*"%string]
  else map PyStr.strip (PyStr.split "," origins).

(** ** Status checks: the [status_checks] collection and its two routes *)

Module Status.

Record StatusCheck := {
  id : string;
  client_name : string;
  timestamp : Z
}.

Record StatusCheckCreate := {
  input_client_name : string
}.

(** What a status request draws from outside the handler. *)
Record Env := {
  urandom : N;
  utcnow : Z;
  insert_fault : option string;
  find_fault : option string
}.

(** The collection, in insertion order. *)
Definition Collection : Type := list StatusCheck.

(** No [try] here: a store fault leaves the handler as it was raised. *)
Definition create_status_check (env : Env) (input : StatusCheckCreate)
    (docs : Collection) : Outcome StatusCheck * Collection :=
  let status_obj := {| id := Py.str_uuid (Py.uuid4 (urandom env));
                       client_name := input_client_name input;
                       timestamp := utcnow env |} in
  match insert_fault env with
  | Some msg => (Raised (PyMongoError msg), docs)
  | None => (Returned status_obj, docs ++ [status_obj])
  end.

(** [find().to_list(1000)]: the first 1000 documents, unsorted. *)
Definition get_status_checks (env : Env) (docs : Collection)
  : Outcome (list StatusCheck) * Collection :=
  match find_fault env with
  | Some msg => (Raised (PyMongoError msg), docs)
  | None => (Returned (firstn 1000 docs), docs)
  end.

Inductive Response :=
| Created (record : StatusCheck)
| Listed (records : list StatusCheck)
| Unprocessable
| ServerError.

Definition status_code (r : Response) : Z :=
  match r with
  | Created _ => 200
  | Listed _ => 200
  | Unprocessable => 422
  | ServerError => 500
  end.

(** [POST /api/status]; the body's [client_name] is [None] when missing. *)
Definition post_status (env : Env) (body_client_name : option string)
    (docs : Collection) : Response * Collection :=
  match body_client_name with
  | None => (Unprocessable, docs)
  | Some name =>
      match create_status_check env {| input_client_name := name |} docs with
      | (Returned record, docs') => (Created record, docs')
      | (Raised _, docs') => (ServerError, docs')
      end
  end.

(** [GET /api/status] *)
Definition get_status (env : Env) (docs : Collection) : Response * Collection :=
  match get_status_checks env docs with
  | (Returned records, docs') => (Listed records, docs')
  | (Raised _, docs') => (ServerError, docs')
  end.

End Status.

(** ** Image generation *)

Record ImageRequest := {
  ireq_prompt : string;
  ireq_session_id : string
}.

Record ImageResponse := {
  iresp_image_base64 : string;
  iresp_session_id : string
}.

(** The JSON body of [POST /api/generate-trip-image] before validation. *)
Record ImageBody := {
  ibody_prompt : Field string;
  ibody_session_id : Field string
}.

(** Both fields of [ImageRequest] are required strings without length
    constraint. *)
Definition parse_ImageRequest (b : ImageBody) : option ImageRequest :=
  match ibody_prompt b, ibody_session_id b with
  | Value p, Value sid => Some {| ireq_prompt := p; ireq_session_id := sid |}
  | _, _ => None
  end.

Record ImageEnv := {
  (** [openai_client.images.generate(model, prompt, size)]: it raises, or
      answers with the [b64_json] of each datum ([None] when the provider
      sent none). *)
  images_generate : string -> string -> string -> Exn + list (option string);
  image_validation_text : string
}.

(** The body of the [try] block of [generate_trip_image].  The handler makes
    no store call; the provider call is the function of [ImageEnv] and
    leaves no event in the trace. *)
Definition image_try (env : ImageEnv) (request : ImageRequest)
  : M ImageResponse :=
  match images_generate env "dall-e-3" (ireq_prompt request) "1024x1024" with
  | inl e => raise e
  | inr data =>
      (* [image_result.data[0].b64_json] *)
      image_base64 <- first_choice data ;;
      match image_base64 with
      | None => raise (ValidationError (image_validation_text env))
      | Some b64 =>
          ret {| iresp_image_base64 := b64;
                 iresp_session_id := ireq_session_id request |}
      end
  end.

Definition image_except (e : Exn) : M ImageResponse :=
  (emit (EvLogError ("Image generation error: " ++ str_exn e)) ;;;
   raise (HTTPException 500 ("Image generation failed: " ++ str_exn e)))%string.

Definition generate_trip_image (env : ImageEnv) (request : ImageRequest)
  : M ImageResponse :=
  try_except (image_try env request) image_except.

(** What [POST /api/generate-trip-image] answers. *)
Inductive ImageAnswer :=
| ImageOk (r : ImageResponse)
| ImageInvalid
| ImageError (status_code : Z) (detail : string).

Definition image_status (a : ImageAnswer) : Z :=
  match a with
  | ImageOk _ => 200
  | ImageInvalid => 422
  | ImageError code _ => code
  end.

Definition post_image (env : ImageEnv) (body : ImageBody) (w : World)
  : ImageAnswer * World :=
  match parse_ImageRequest body with
  | None => (ImageInvalid, w)
  | Some request =>
      match generate_trip_image env request w with
      | (Returned r, w') => (ImageOk r, w')
      | (Raised (HTTPException code detail), w') => (ImageError code detail, w')
      | (Raised _, w') => (ImageError 500 "Internal Server Error", w')
      end
  end.

(** [GET /api/] *)
Definition root : list (string * string) :=
  [("message", "AI Travel Assistant API is running!")]%string.

(** ** The HTTP test client of [backend_test.py] *)

Module Tester.

(** What [response.json()] returns and what a request body is built from
    (numbers are integers here). *)
#[warnings="-register-all"] Inductive Json :=
| JNull
| JBool (b : bool)
| JNum (n : Z)
| JStr (s : string)
| JList (items : list Json)
| JDict (entries : list (string * Json)).

(** Truthiness of such a value. *)
Definition truthy (j : Json) : bool :=
  match j with
  | JNull => false
  | JBool b => b
  | JNum n => negb (n =? 0)
  | JStr s => negb (String.eqb s "")
  | JList items => match items with [] => false | _ => true end
  | JDict entries => match entries with [] => false | _ => true end
  end.

(** [entries[key]], a key occurring once. *)
Fixpoint dict_get (key : string) (entries : list (string * Json))
  : option Json :=
  match entries with
  | [] => None
  | (k, v) :: r => if String.eqb k key then Some v else dict_get key r
  end.

(** The second component of what [run_test] returns: the parsed body, or the
    body's text when it is not JSON. *)
Inductive Data :=
| Parsed (j : Json)
| Text (s : string).

Definition empty_dict : Data := Parsed (JDict []).

Definition is_dict (d : Data) : bool :=
  match d with
  | Parsed (JDict _) => true
  | _ => false
  end.

Definition is_list (d : Data) : bool :=
  match d with
  | Parsed (JList _) => true
  | _ => false
  end.

(** ['key' in response and response['key']] for a [response] that is a
    dict. *)
Definition has_truthy (key : string) (d : Data) : bool :=
  match d with
  | Parsed (JDict entries) =>
      match dict_get key entries with
      | Some v => truthy v
      | None => false
      end
  | _ => false
  end.

(** A tuple of two items is never falsy. *)
Definition truthy_pair {A B : Type} (p : A * B) : bool := true.

(** What [requests.get] and [requests.post] are asked. *)
Inductive Call :=
| Get (url : string)
| Post (url : string) (data : option Json).

(** What comes back: a response ([json] is [None] when the body is not
    JSON), a timeout, or any other exception of the transport. *)
Inductive Reply :=
| Response (status_code : Z) (json : option Json) (text : string)
| Timeout
| RequestError (msg : string).

Record TravelBotAPITester := {
  api_url : string;
  tests_run : nat;
  tests_passed : nat;
  session_id : string
}.

(** [__init__]; [stamp] is the formatted time of construction. *)
Definition init (base_url stamp : string) : TravelBotAPITester :=
  {| api_url := base_url ++ "/api";
     tests_run := 0;
     tests_passed := 0;
     session_id := "test_session_" ++ stamp |}.

Definition count_run (t : TravelBotAPITester) : TravelBotAPITester :=
  {| api_url := api_url t;
     tests_run := tests_run t + 1;
     tests_passed := tests_passed t;
     session_id := session_id t |}.

Definition count_passed (t : TravelBotAPITester) : TravelBotAPITester :=
  {| api_url := api_url t;
     tests_run := tests_run t;
     tests_passed := tests_passed t + 1;
     session_id := session_id t |}.

Section Suite.

(** The server under test: its state and how it answers a call. *)
Variable Server : Type.
Variable send : Call -> Server -> Reply * Server.

Definition State : Type := TravelBotAPITester * Server.

Definition run_test (name method endpoint : string) (expected_status : Z)
    (data : option Json) (st : State) : (bool * Data) * State :=
  let '(self, server) := st in
  let url := if String.prefix "http" endpoint then endpoint
             else (api_url self ++ "/" ++ endpoint)%string in
  let self := count_run self in
  let call :=
    if String.eqb method "GET" then Some (Get url)
    else if String.eqb method "POST" then Some (Post url data)
    else None in
  match call with
  | None =>
      (* [response] is unbound: the exception is caught *)
      ((false, empty_dict), (self, server))
  | Some c =>
      match send c server with
      | (Response status_code json text, server') =>
          if status_code =? expected_status then
            let self := count_passed self in
            match json with
            | Some response_data => ((true, Parsed response_data), (self, server'))
            | None => ((true, Text text), (self, server'))
            end
          else ((false, empty_dict), (self, server'))
      | (Timeout, server') => ((false, empty_dict), (self, server'))
      | (RequestError _, server') => ((false, empty_dict), (self, server'))
      end
  end.

Definition test_root_endpoint (st : State) : (bool * Data) * State :=
  run_test "Root API Endpoint" "GET" "" 200 None st.

Definition test_status_endpoints (st : State) : bool * State :=
  let status_data := JDict [("client_name", JStr "test_client")]%string in
  let '((success, response), st) :=
    run_test "Create Status Check" "POST" "status" 200 (Some status_data) st in
  if success then
    let '(_, st) := run_test "Get Status Checks" "GET" "status" 200 None st in
    (success, st)
  else (success, st).

Definition chat_data (self : TravelBotAPITester) : Json :=
  JDict [("message", JStr "Plan a trip to Paris for 5 days");
         ("session_id", JStr (session_id self));
         ("budget", JStr "$2000-3000");
         ("location", JStr "Paris, France");
         ("duration", JStr "5 days");
         ("travelers", JNum 2)]%string.

Definition test_chat_endpoint (st : State) : bool * State :=
  let '((success, response), st') :=
    run_test "Chat with Travel Context" "POST" "chat" 200
      (Some (chat_data (fst st))) st in
  if success && is_dict response then
    if has_truthy "message" response then (true, st') else (false, st')
  else (success, st').

Definition test_chat_without_context (st : State) : (bool * Data) * State :=
  let chat_data :=
    JDict [("message", JStr "What are some popular travel destinations?");
           ("session_id", JStr (session_id (fst st)))]%string in
  run_test "Chat without Context" "POST" "chat" 200 (Some chat_data) st.

Definition test_image_generation (st : State) : bool * State :=
  let image_data :=
    JDict [("prompt", JStr "Paris Eiffel Tower beautiful sunset");
           ("session_id", JStr (session_id (fst st)))]%string in
  let '((success, response), st') :=
    run_test "Generate Trip Image" "POST" "generate-trip-image" 200
      (Some image_data) st in
  if success && is_dict response then
    if has_truthy "image_base64" response then (true, st') else (false, st')
  else (success, st').

Definition test_chat_history (st : State) : bool * State :=
  let '((success, response), st') :=
    run_test "Get Chat History" "GET"
      ("chat-history/" ++ session_id (fst st)) 200 None st in
  if success && is_list response then (true, st') else (success, st').

Definition invalid_chat : Json :=
  JDict [("message", JStr ""); ("session_id", JStr "")]%string.

Definition invalid_image : Json :=
  JDict [("prompt", JStr ""); ("session_id", JStr "")]%string.

Definition test_error_handling (st : State) : State :=
  let '(_, st) :=
    run_test "Invalid Chat Request" "POST" "chat" 422 (Some invalid_chat) st in
  let '(_, st) :=
    run_test "Invalid Image Request" "POST" "generate-trip-image" 422
      (Some invalid_image) st in
  let '(_, st) :=
    run_test "Non-existent Chat History" "GET" "chat-history/nonexistent" 200
      None st in
  st.

Definition run_comprehensive_test (st : State) : bool * State :=
  let '(root_result, st) := test_root_endpoint st in
  if negb (truthy_pair root_result) then (false, st)
  else
    let '(_, st) := test_status_endpoints st in
    let '(chat_ok, st) := test_chat_endpoint st in
    if negb chat_ok then (false, st)
    else
      let '(_, st) := test_chat_without_context st in
      let '(_, st) := test_image_generation st in
      let '(_, st) := test_chat_history st in
      let st := test_error_handling st in
      if Nat.eqb (tests_passed (fst st)) (tests_run (fst st)) then (true, st)
      else (false, st).

(** [main]: the exit code. *)
Definition main (stamp : string) (server : Server) : Z :=
  let tester := init "https://itinerabot.preview.emergentagent.com" stamp in
  let '(success, _) := run_comprehensive_test (tester, server) in
  if success then 0 else 1.

End Suite.

(** [st'] is [st] after [k] more checks, [p] of them passed. *)
Definition advanced {Server : Type} (k p : nat)
    (st st' : TravelBotAPITester * Server) : Prop :=
  tests_run (fst st') = (tests_run (fst st) + k)%nat /\
  tests_passed (fst st') = (tests_passed (fst st) + p)%nat /\
  (p <= k)%nat /\
  api_url (fst st') = api_url (fst st) /\
  session_id (fst st') = session_id (fst st).



End Tester.

(** * Proofs *)

(** ** The store *)

Section StoreFacts.

Import Db.

Lemma insert_by_timestamp_length d l :
  List.length (insert_by_timestamp d l) = S (List.length l).
Proof.
  induction l as [|x r IH]; simpl; [reflexivity|].
  destruct (timestamp d <=? timestamp x); simpl; congruence.
Qed.

Lemma sort_timestamp_length l : List.length (sort_timestamp l) = List.length l.
Proof.
  induction l as [|x r IH]; simpl; [reflexivity|].
  now rewrite insert_by_timestamp_length, IH.
Qed.

Lemma insert_by_timestamp_perm d l :
  Permutation (d :: l) (insert_by_timestamp d l).
Proof.
  induction l as [|x r IH]; simpl; [apply Permutation_refl|].
  destruct (timestamp d <=? timestamp x); [apply Permutation_refl|].
  eapply perm_trans; [apply perm_swap|]. now apply perm_skip.
Qed.

Lemma sort_timestamp_perm l : Permutation l (sort_timestamp l).
Proof.
  induction l as [|x r IH]; simpl; [constructor|].
  eapply perm_trans; [apply perm_skip, IH|apply insert_by_timestamp_perm].
Qed.

Lemma insert_by_timestamp_hd d a l :
  HdRel le_timestamp a l -> le_timestamp a d ->
  HdRel le_timestamp a (insert_by_timestamp d l).
Proof.
  intros Hl Had. destruct l as [|x r]; simpl; [now constructor|].
  destruct (timestamp d <=? timestamp x); constructor; trivial.
  now inversion Hl.
Qed.

Lemma insert_by_timestamp_sorted d l :
  Sorted le_timestamp l -> Sorted le_timestamp (insert_by_timestamp d l).
Proof.
  induction 1 as [|x r Hs IH Hhd]; simpl; [repeat constructor|].
  destruct (timestamp d <=? timestamp x) eqn:E.
  - constructor; [now constructor|]. constructor.
    unfold le_timestamp. lia.
  - constructor; [exact IH|]. apply insert_by_timestamp_hd; trivial.
    unfold le_timestamp. lia.
Qed.

Lemma sort_timestamp_sorted l : Sorted le_timestamp (sort_timestamp l).
Proof.
  induction l as [|x r IH]; simpl; [constructor|].
  now apply insert_by_timestamp_sorted.
Qed.

(** A turn that is not older than the stored ones is sorted last. *)
Lemma insert_by_timestamp_snoc d l x :
  timestamp d <= timestamp x ->
  insert_by_timestamp d (l ++ [x]) = insert_by_timestamp d l ++ [x].
Proof.
  intros Hdx. induction l as [|y r IH]; simpl.
  - destruct (timestamp d <=? timestamp x) eqn:E; [reflexivity|lia].
  - destruct (timestamp d <=? timestamp y); [reflexivity|].
    now rewrite IH.
Qed.

Lemma sort_timestamp_snoc l x :
  Forall (fun d => timestamp d <= timestamp x) l ->
  sort_timestamp (l ++ [x]) = sort_timestamp l ++ [x].
Proof.
  induction 1 as [|y r Hy Hr IH]; simpl; [reflexivity|].
  rewrite IH. now apply insert_by_timestamp_snoc.
Qed.

Lemma firstn_sorted n l :
  Sorted le_timestamp l -> Sorted le_timestamp (firstn n l).
Proof.
  intros Hs. revert n.
  induction Hs as [|x r Hs IH Hhd]; intros [|n]; simpl; try constructor.
  - apply IH.
  - destruct Hhd; destruct n; simpl; constructor; trivial.
Qed.

Lemma firstn_incl (n : nat) (l : list ChatMessage) d :
  In d (firstn n l) -> In d l.
Proof.
  revert n. induction l as [|x r IH]; intros [|n]; simpl; try tauto.
  intros [H|H]; [now left|right; eauto].
Qed.

Lemma of_session_app sid l1 l2 :
  of_session sid (l1 ++ l2) = of_session sid l1 ++ of_session sid l2.
Proof. apply filter_app. Qed.

Lemma of_session_In sid d l :
  In d (of_session sid l) <-> In d l /\ session_id d = sid.
Proof.
  unfold of_session. rewrite filter_In. now rewrite String.eqb_eq.
Qed.

Lemma query_In sid n l d :
  In d (query sid n l) -> In d l /\ session_id d = sid.
Proof.
  unfold query. intros H. apply firstn_incl in H.
  apply (Permutation_in _ (Permutation_sym (sort_timestamp_perm _))) in H.
  now apply of_session_In.
Qed.

Lemma query_length sid n l :
  List.length (query sid n l) = Nat.min n (List.length (of_session sid l)).
Proof.
  unfold query. now rewrite length_firstn, sort_timestamp_length.
Qed.

Lemma query_sorted sid n l : Sorted le_timestamp (query sid n l).
Proof. apply firstn_sorted, sort_timestamp_sorted. Qed.

End StoreFacts.

(** In a sorted list no turn of the tail is earlier than a turn of the
    head. *)
Lemma sorted_split_le (l1 l2 : list ChatMessage) :
  Sorted le_timestamp (l1 ++ l2) ->
  forall d d', In d l1 -> In d' l2 -> timestamp d <= timestamp d'.
Proof.
  intros Hs. apply Sorted_StronglySorted in Hs.
  2:{ intros a b c Hab Hbc. unfold le_timestamp in *. lia. }
  induction l1 as [|x r IH]; simpl in *; [contradiction|].
  inversion Hs as [|? ? Hr Hx]; subst.
  intros d d' [<-|Hd] Hd'.
  - rewrite Forall_forall in Hx. apply Hx. apply in_or_app. now right.
  - now apply IH.
Qed.

(** ** One chat request *)

Ltac run_monad :=
  cbv beta iota zeta delta
    [chat_try new_ChatMessage Db.insert_one Db.find_sorted create_completion
     first_choice bind ret raise emit fst snd chat_messages trace];
  rewrite <- ?app_assoc; cbn [app].

Lemma chat_try_run env request w :
  chat_run env request w
    (fst (chat_try env request w)) (snd (chat_try env request w)).
Proof.
  destruct w as [docs tr].
  run_monad.
  destruct (insert_user_fault env) as [m1|] eqn:Eu; run_monad.
  { now apply run_user_insert_fails. }
  destruct (find_fault env) as [m2|] eqn:Ef; run_monad.
  { now apply run_find_fails. }
  destruct (completions_create env _ _) as [e|[|[reply|] rest]] eqn:Ec; run_monad.
  { now apply run_gateway_fails. }
  { now apply run_no_choice. }
  2:{ eapply run_no_content; eassumption. }
  destruct (insert_ai_fault env) as [m3|] eqn:Ea; run_monad.
  { eapply run_ai_insert_fails; eassumption. }
  eapply run_responded; eassumption.
Qed.

Lemma chat_with_ai_try env request w :
  chat_with_ai env request w =
  match chat_try env request w with
  | (Returned resp, w1) => (Returned resp, w1)
  | (Raised cause, w0) => (Raised (chat_failure cause), logged cause w0)
  end.
Proof.
  unfold chat_with_ai, try_except.
  destruct (chat_try env request w) as [[resp|cause] w1]; reflexivity.
Qed.

Lemma chat_with_ai_cases env request w :
  (exists resp w1,
      chat_run env request w (Returned resp) w1 /\
      chat_with_ai env request w = (Returned resp, w1)) \/
  (exists cause w0,
      chat_run env request w (Raised cause) w0 /\
      chat_with_ai env request w = (Raised (chat_failure cause), logged cause w0)).
Proof.
  rewrite chat_with_ai_try.
  pose proof (chat_try_run env request w) as R.
  destruct (chat_try env request w) as [[resp|cause] w1]; simpl in R.
  - left. now exists resp, w1.
  - right. now exists cause, w1.
Qed.

Lemma prompts_of_app tr1 tr2 :
  prompts_of (tr1 ++ tr2) = prompts_of tr1 ++ prompts_of tr2.
Proof.
  induction tr1 as [|[doc|sid n|model msgs|line] r IH]; simpl; trivial.
  now rewrite IH.
Qed.

Lemma chat_sends_one_prompt env request w :
  insert_user_fault env = None -> find_fault env = None ->
  prompts_of (trace (snd (chat_with_ai env request w)))
  = prompts_of (trace w) ++ [prompt env request w].
Proof.
  intros Hu Hf.
  destruct (chat_with_ai_cases env request w)
    as [(resp & w1 & R & E)|(cause & w0 & R & E)]; rewrite E; clear E;
    inversion R; subst; try congruence; simpl;
    rewrite ?prompts_of_app; simpl; rewrite ?app_nil_r; reflexivity.
Qed.

Lemma stored_count_S env request w :
  stored_count env request w
  = S (List.length (Db.of_session (chat_session_id env request) (chat_messages w))).
Proof.
  unfold stored_count. rewrite of_session_app, length_app. simpl.
  rewrite String.eqb_refl. simpl. lia.
Qed.

Lemma context_window_length env request w :
  List.length (context_window env request w)
  = Nat.min 5 (stored_count env request w).
Proof. apply query_length. Qed.

Lemma prompt_length env request w :
  List.length (prompt env request w)
  = ((if has_trip_context request then 2 else 1)
     + Nat.min 5 (stored_count env request w))%nat.
Proof.
  unfold prompt, build_messages.
  destruct (has_trip_context request); simpl;
    rewrite ?length_app, length_map, context_window_length; simpl; lia.
Qed.

Lemma occurs_in_intro before needle after :
  occurs_in needle (before ++ needle ++ after)%string.
Proof. now exists before, after. Qed.

Lemma append_assoc (a b c : string) :
  ((a ++ b) ++ c = a ++ (b ++ c))%string.
Proof. induction a as [|x a IH]; simpl; [reflexivity|now rewrite IH]. Qed.

(** ** The context window *)

Lemma of_session_user_turn env request :
  Db.of_session (chat_session_id env request) [user_turn env request]
  = [user_turn env request].
Proof. unfold Db.of_session. simpl. now rewrite String.eqb_refl. Qed.


Lemma context_window_sorted_last env request w :
  Forall (fun d => timestamp d <= now_user env)
    (Db.of_session (chat_session_id env request) (chat_messages w)) ->
  context_window env request w
  = firstn 5
      (Db.sort_timestamp
         (Db.of_session (chat_session_id env request) (chat_messages w))
       ++ [user_turn env request]).
Proof.
  intros Hold. unfold context_window, Db.query.
  rewrite of_session_app, of_session_user_turn.
  now rewrite sort_timestamp_snoc.
Qed.

(** With fewer than five stored turns the new message is in the window. *)
Lemma context_window_includes_new_turn env request w :
  Forall (fun d => timestamp d <= now_user env)
    (Db.of_session (chat_session_id env request) (chat_messages w)) ->
  (stored_count env request w <= 5)%nat ->
  In (user_turn env request) (context_window env request w).
Proof.
  intros Hold Hn. rewrite stored_count_S in Hn.
  rewrite context_window_sorted_last by assumption.
  rewrite firstn_all2.
  - apply in_or_app. right. now left.
  - rewrite length_app, sort_timestamp_length. simpl. lia.
Qed.

(** With five stored turns or more the window is what it was before the new
    message was stored: the five oldest turns. *)
Lemma context_window_skips_new_turn env request w :
  Forall (fun d => timestamp d <= now_user env)
    (Db.of_session (chat_session_id env request) (chat_messages w)) ->
  (5 < stored_count env request w)%nat ->
  context_window env request w
  = Db.query (chat_session_id env request) 5 (chat_messages w).
Proof.
  intros Hold Hn. rewrite stored_count_S in Hn.
  rewrite context_window_sorted_last by assumption.
  unfold Db.query. rewrite firstn_app.
  rewrite sort_timestamp_length.
  replace (5 - _)%nat with 0%nat by lia.
  simpl. now rewrite app_nil_r.
Qed.

(** ** The endpoints *)



Lemma parse_ChatRequest_fields body request :
  parse_ChatRequest body = Some request ->
  body_message body = Value (req_message request) /\
  optional (body_session_id body) = Some (req_session_id request) /\
  optional (body_budget body) = Some (req_budget request) /\
  optional (body_location body) = Some (req_location request) /\
  optional (body_duration body) = Some (req_duration request) /\
  optional (body_travelers body) = Some (req_travelers request).
Proof.
  unfold parse_ChatRequest.
  destruct (body_message body); try discriminate.
  destruct (optional (body_session_id body)); try discriminate.
  destruct (optional (body_budget body)); try discriminate.
  destruct (optional (body_location body)); try discriminate.
  destruct (optional (body_duration body)); try discriminate.
  destruct (optional (body_travelers body)); try discriminate.
  intros H. inversion H. repeat split.
Qed.


(** A validated chat request is answered 200 or 500. *)
Lemma chat_status env request w :
  let r := respond ChatJson (chat_with_ai env request w) in
  status (fst r) = 200 \/ status (fst r) = 500.
Proof.
  destruct (chat_with_ai_cases env request w)
    as [(resp & w1 & R & E)|(cause & w0 & R & E)]; simpl; rewrite E; simpl;
    auto.
Qed.

(** What one request adds to the collection. *)
Lemma chat_store_grows env request w :
  exists new,
    chat_messages (snd (chat_with_ai env request w)) = chat_messages w ++ new /\
    (new = [] \/ new = [user_turn env request] \/
     exists reply,
       new = [user_turn env request; assistant_turn env request reply]).
Proof.
  destruct (chat_with_ai_cases env request w)
    as [(resp & w1 & R & E)|(cause & w0 & R & E)]; rewrite E; clear E;
    inversion R; subst; simpl;
    try (exists []; rewrite app_nil_r; now auto);
    try (exists [user_turn env request]; now auto).
  exists [user_turn env request; assistant_turn env request reply].
  split; [reflexivity|]. right; right. now exists reply.
Qed.

Lemma chat_keeps_senders env request w :
  Forall sender_ok (chat_messages w) ->
  Forall sender_ok (chat_messages (snd (chat_with_ai env request w))).
Proof.
  intros Hw. destruct (chat_store_grows env request w) as (new & -> & Hnew).
  apply Forall_app. split; [assumption|].
  destruct Hnew as [->|[->|(reply & ->)]];
    repeat (apply Forall_cons || apply Forall_nil);
    unfold sender_ok; simpl; auto.
Qed.

Lemma reachable_senders w : reachable w -> Forall sender_ok (chat_messages w).
Proof.
  induction 1 as [|env body w Hw IH|env sid w Hw IH].
  - constructor.
  - unfold post_chat. destruct (parse_ChatRequest body) as [request|];
      [|exact IH].
    pose proof (chat_keeps_senders env request w IH) as H.
    unfold respond. destruct (chat_with_ai env request w) as [[a|[]] w1];
      exact H.
  - unfold get_history, respond, get_chat_history, try_except,
      Db.find_sorted, bind, emit, raise.
    destruct (is_path_segment sid); [|exact IH].
    destruct (find_fault env); simpl; exact IH.
Qed.

Lemma str_uuid_nonempty u : Py.str_uuid u <> ""%string.
Proof.
  unfold Py.str_uuid.
  destruct (substring 0 8 (Py.hex_fixed 32 u)); discriminate.
Qed.

(** ** Identifiers *)

Lemma length_append (a b : string) :
  String.length (a ++ b) = (String.length a + String.length b)%nat.
Proof. induction a as [|c a IH]; simpl; [reflexivity|now rewrite IH]. Qed.

Lemma hex_fixed_length n v : String.length (Py.hex_fixed n v) = n.
Proof.
  revert v. induction n as [|n IH]; intros v; simpl; [reflexivity|].
  rewrite length_append, IH. simpl. lia.
Qed.

Lemma append_last_inj (a b : string) (x y : ascii) :
  (a ++ String x "" = b ++ String y "")%string -> a = b /\ x = y.
Proof.
  revert b. induction a as [|c a IH]; intros [|d b] H; simpl in H.
  - now inversion H.
  - inversion H as [[Hc Hr]]. destruct b; discriminate.
  - inversion H as [[Hc Hr]]. destruct a; discriminate.
  - inversion H as [[Hc Hr]]. destruct (IH _ Hr) as [-> ->]. now split.
Qed.

Lemma hex_digit_inj (a b : N) :
  (a < 16)%N -> (b < 16)%N -> Py.hex_digit a = Py.hex_digit b -> a = b.
Proof.
  intros Ha Hb.
  assert (Hcases : forall x : N, (x < 16)%N ->
            (x = 0 \/ x = 1 \/ x = 2 \/ x = 3 \/ x = 4 \/ x = 5 \/ x = 6 \/
             x = 7 \/ x = 8 \/ x = 9 \/ x = 10 \/ x = 11 \/ x = 12 \/
             x = 13 \/ x = 14 \/ x = 15)%N) by (intros; lia).
  destruct (Hcases a Ha) as [->|[->|[->|[->|[->|[->|[->|[->|[->|[->|[->|[->|[->|[->|[->| ->]]]]]]]]]]]]]]];
  destruct (Hcases b Hb) as [->|[->|[->|[->|[->|[->|[->|[->|[->|[->|[->|[->|[->|[->|[->| ->]]]]]]]]]]]]]]];
  simpl; intros H; try reflexivity; discriminate H.
Qed.

Lemma hex_fixed_inj n (u v : N) :
  (u < 16 ^ N.of_nat n)%N -> (v < 16 ^ N.of_nat n)%N ->
  Py.hex_fixed n u = Py.hex_fixed n v -> u = v.
Proof.
  revert u v. induction n as [|n IH]; intros u v Hu Hv H.
  - simpl in Hu, Hv. lia.
  - simpl in H. apply append_last_inj in H. destruct H as [Hhigh Hlow].
    rewrite Nat2N.inj_succ, N.pow_succ_r' in Hu, Hv.
    assert (u / 16 = v / 16)%N as Hq.
    { apply IH; trivial; apply N.Div0.div_lt_upper_bound; lia. }
    assert (u mod 16 = v mod 16)%N as Hr.
    { apply hex_digit_inj; trivial; apply N.mod_lt; lia. }
    rewrite (N.Div0.div_mod u 16), (N.Div0.div_mod v 16). now rewrite Hq, Hr.
Qed.

Ltac open_string h H :=
  repeat (destruct h as [|? h]; [discriminate H|];
          simpl in H; apply eq_add_S in H);
  destruct h; [clear H|discriminate H].

(** The five groups and their hyphens keep all 32 digits. *)
Lemma uuid_groups_inj (g h : string) :
  String.length g = 32%nat -> String.length h = 32%nat ->
  (substring 0 8 g ++ "-" ++ substring 8 4 g ++ "-" ++
   substring 12 4 g ++ "-" ++ substring 16 4 g ++ "-" ++
   substring 20 12 g
   = substring 0 8 h ++ "-" ++ substring 8 4 h ++ "-" ++
     substring 12 4 h ++ "-" ++ substring 16 4 h ++ "-" ++
     substring 20 12 h)%string ->
  g = h.
Proof.
  intros Hg Hh. open_string g Hg. open_string h Hh.
  cbn. intros E. inversion E. reflexivity.
Qed.

Lemma uuid4_bits r n :
  (128 <= n)%N -> N.testbit (Py.uuid4 r) n = false.
Proof.
  intros Hn. unfold Py.uuid4. cbv zeta.
  rewrite N.lor_spec, N.ldiff_spec, N.lor_spec, N.ldiff_spec.
  rewrite N.mod_pow2_bits_high by exact Hn.
  rewrite (N.bits_above_log2 (N.shiftl 32768 48)),
          (N.bits_above_log2 (N.shiftl 4 76));
    [reflexivity| |]; (eapply N.lt_le_trans; [|exact Hn]); reflexivity.
Qed.

Lemma uuid4_small r : (Py.uuid4 r < 2 ^ 128)%N.
Proof.
  assert (H : Py.uuid4 r = (Py.uuid4 r mod 2 ^ 128)%N).
  { apply N.bits_inj. intros n.
    destruct (N.lt_ge_cases n 128) as [Hlt|Hge].
    - now rewrite N.mod_pow2_bits_low.
    - rewrite N.mod_pow2_bits_high by exact Hge. now apply uuid4_bits. }
  rewrite H. apply N.mod_lt. discriminate.
Qed.

(** Two identifiers are the same text only when the two UUIDs are the same
    number. *)
Lemma str_uuid4_inj r1 r2 :
  Py.str_uuid (Py.uuid4 r1) = Py.str_uuid (Py.uuid4 r2) ->
  Py.uuid4 r1 = Py.uuid4 r2.
Proof.
  unfold Py.str_uuid. cbv zeta. intros H.
  apply uuid_groups_inj in H; try apply hex_fixed_length.
  apply (hex_fixed_inj 32); trivial; apply uuid4_small.
Qed.

Lemma shiftl_bit_outside (c k n : N) :
  (n < k \/ N.log2 (N.shiftl c k) < n)%N ->
  N.testbit (N.shiftl c k) n = false.
Proof.
  intros [H|H]; [now apply N.shiftl_spec_low|now apply N.bits_above_log2].
Qed.

Ltac fixed_bit :=
  repeat match goal with
         | |- context [N.testbit (N.shiftl ?c ?k) ?m] =>
             let v := eval vm_compute in (N.testbit (N.shiftl c k) m) in
             change (N.testbit (N.shiftl c k) m) with v
         end;
  cbn [negb];
  rewrite ?andb_false_r, ?andb_true_r, ?orb_true_r, ?orb_false_r;
  reflexivity.

(** The bits of a [uuid4]: the variant in bits 62 and 63, the version in
    bits 76 to 79, the random bytes everywhere else below bit 128. *)
Lemma uuid4_testbit r n :
  N.testbit (Py.uuid4 r) n
  = if (n =? 63)%N || (n =? 78)%N then true
    else if (n =? 62)%N || (n =? 76)%N || (n =? 77)%N || (n =? 79)%N
         then false
         else if (n <? 128)%N then N.testbit r n else false.
Proof.
  unfold Py.uuid4. cbv zeta.
  change (N.shiftl 49152 48) with (N.shiftl 3 62).
  change (N.shiftl 32768 48) with (N.shiftl 1 63).
  change (N.shiftl 61440 64) with (N.shiftl 15 76).
  change (N.shiftl 4 76) with (N.shiftl 1 78).
  rewrite N.lor_spec, N.ldiff_spec, N.lor_spec, N.ldiff_spec.
  destruct (N.eqb_spec n 63) as [->|H63]; [fixed_bit|].
  destruct (N.eqb_spec n 78) as [->|H78]; [fixed_bit|].
  destruct (N.eqb_spec n 62) as [->|H62]; [fixed_bit|].
  destruct (N.eqb_spec n 76) as [->|H76]; [fixed_bit|].
  destruct (N.eqb_spec n 77) as [->|H77]; [fixed_bit|].
  destruct (N.eqb_spec n 79) as [->|H79]; [fixed_bit|].
  cbn [orb].
  assert (H1 : N.testbit (N.shiftl 3 62) n = false).
  { apply shiftl_bit_outside. change (N.log2 (N.shiftl 3 62)) with 63%N. lia. }
  assert (H2 : N.testbit (N.shiftl 1 63) n = false).
  { apply shiftl_bit_outside. change (N.log2 (N.shiftl 1 63)) with 63%N. lia. }
  assert (H3 : N.testbit (N.shiftl 15 76) n = false).
  { apply shiftl_bit_outside. change (N.log2 (N.shiftl 15 76)) with 79%N. lia. }
  assert (H4 : N.testbit (N.shiftl 1 78) n = false).
  { destruct (N.lt_ge_cases n 78).
    - now apply N.shiftl_spec_low.
    - apply N.bits_above_log2. change (N.log2 (N.shiftl 1 78)) with 78%N. lia. }
  rewrite H1, H2, H3, H4. cbn [negb]. rewrite !andb_true_r, !orb_false_r.
  destruct (N.ltb_spec n 128) as [Hlt|Hge].
  - now apply N.mod_pow2_bits_low.
  - now apply N.mod_pow2_bits_high.
Qed.

(** Two draws give the same identifier exactly when they agree on the 122
    bits that [uuid4] keeps. *)
Lemma str_uuid4_same r1 r2 :
  Py.str_uuid (Py.uuid4 r1) = Py.str_uuid (Py.uuid4 r2) <->
  (forall n,
      (n < 128)%N -> n <> 62%N -> n <> 63%N -> n <> 76%N -> n <> 77%N ->
      n <> 78%N -> n <> 79%N ->
      N.testbit r1 n = N.testbit r2 n).
Proof.
  split.
  - intros H n Hn H62 H63 H76 H77 H78 H79. apply str_uuid4_inj in H.
    apply (f_equal (fun u => N.testbit u n)) in H.
    rewrite !uuid4_testbit in H.
    apply N.eqb_neq in H62, H63, H76, H77, H78, H79.
    apply N.ltb_lt in Hn.
    now rewrite H62, H63, H76, H77, H78, H79, Hn in H.
  - intros H. f_equal. apply N.bits_inj. intros n.
    rewrite !uuid4_testbit.
    destruct (N.eqb_spec n 63); [reflexivity|].
    destruct (N.eqb_spec n 78); [reflexivity|].
    destruct (N.eqb_spec n 62); [reflexivity|].
    destruct (N.eqb_spec n 76); [reflexivity|].
    destruct (N.eqb_spec n 77); [reflexivity|].
    destruct (N.eqb_spec n 79); [reflexivity|].
    cbn [orb]. destruct (N.ltb_spec n 128); [|reflexivity].
    now apply H.
Qed.

(** The request parsed from a body whose session id is the empty string is
    the one parsed without session id, but for that field. *)
Lemma parse_ChatRequest_empty_session m b l d t :
  parse_ChatRequest
    {| body_message := m; body_session_id := Value ""%string;
       body_budget := b; body_location := l; body_duration := d;
       body_travelers := t |}
  = match parse_ChatRequest
            {| body_message := m; body_session_id := Absent;
               body_budget := b; body_location := l; body_duration := d;
               body_travelers := t |} with
    | Some request =>
        Some {| req_message := req_message request;
                req_session_id := Some ""%string;
                req_budget := req_budget request;
                req_location := req_location request;
                req_duration := req_duration request;
                req_travelers := req_travelers request |}
    | None => None
    end.
Proof. destruct m, b, l, d, t; reflexivity. Qed.

(** ** The trip context *)

Lemma trip_context_location request :
  occurs_in ("- Location: " ++ Py.or_str (req_location request) "not specified")
    (trip_context request).
Proof.
  unfold trip_context.
  eexists (Py.newline ++ indent ++ "Trip details:" ++ Py.newline ++ indent)%string, _.
  rewrite !append_assoc. reflexivity.
Qed.

Ltac occurs_after before :=
  unfold trip_context; exists before; eexists;
  rewrite !append_assoc; reflexivity.

Lemma trip_context_duration request :
  occurs_in ("- Duration: " ++ Py.or_str (req_duration request) "not specified")
    (trip_context request).
Proof.
  occurs_after
    (Py.newline ++ indent ++ "Trip details:" ++ Py.newline ++
     indent ++ "- Location: "
       ++ Py.or_str (req_location request) "not specified" ++ Py.newline ++
     indent)%string.
Qed.

Lemma trip_context_budget request :
  occurs_in ("- Budget: " ++ Py.or_str (req_budget request) "not specified")
    (trip_context request).
Proof.
  occurs_after
    (Py.newline ++ indent ++ "Trip details:" ++ Py.newline ++
     indent ++ "- Location: "
       ++ Py.or_str (req_location request) "not specified" ++ Py.newline ++
     indent ++ "- Duration: "
       ++ Py.or_str (req_duration request) "not specified" ++ Py.newline ++
     indent)%string.
Qed.

Lemma trip_context_travelers request :
  occurs_in ("- Travelers: " ++ Py.str_int (Py.or_int (req_travelers request) 1))
    (trip_context request).
Proof.
  occurs_after
    (Py.newline ++ indent ++ "Trip details:" ++ Py.newline ++
     indent ++ "- Location: "
       ++ Py.or_str (req_location request) "not specified" ++ Py.newline ++
     indent ++ "- Duration: "
       ++ Py.or_str (req_duration request) "not specified" ++ Py.newline ++
     indent ++ "- Budget: "
       ++ Py.or_str (req_budget request) "not specified" ++ Py.newline ++
     indent)%string.
Qed.

(** ** Prompts and senders *)

Lemma chat_prompts env request w :
  let r := chat_with_ai env request w in
  prompts_of (trace (snd r)) = prompts_of (trace w) \/
  prompts_of (trace (snd r)) = prompts_of (trace w) ++ [prompt env request w].
Proof.
  destruct (chat_with_ai_cases env request w)
    as [(resp & w1 & R & E)|(cause & w0 & R & E)]; cbv zeta; rewrite E; clear E;
    inversion R; subst; simpl;
    rewrite ?prompts_of_app; simpl; rewrite ?app_nil_r; auto.
Qed.

Lemma context_window_senders env request w :
  Forall sender_ok (chat_messages w) ->
  Forall role_of_turn (map entry_of (context_window env request w)).
Proof.
  intros Hw. apply Forall_forall. intros e He.
  apply in_map_iff in He. destruct He as (d & <- & Hd).
  apply query_In in Hd. destruct Hd as [Hd _].
  apply in_app_or in Hd. destruct Hd as [Hd|[<-|[]]].
  - rewrite Forall_forall in Hw. exact (Hw d Hd).
  - now left.
Qed.

Lemma converse_reachable n : reachable (Scenario.converse n).
Proof.
  induction n as [|n IH]; [apply reach_start|].
  change (Scenario.converse (S n))
    with (snd (post_chat (Scenario.env_exchange (S n))
                 (Scenario.body_of (Some "s"%string) (Scenario.question (S n)))
                 (Scenario.converse n))).
  now apply reach_chat.
Qed.

(** * The claims *)

(** C1 (the code departs from it). After three answered questions in session
    [s] a fourth message is stored and answered, but the window read back
    for the prompt holds the five oldest turns of the session: the prompt
    sent to the provider is the one of the third request, and the message
    just stored is not in it. *)
Theorem context_window_keeps_oldest_turns :
  let env := Scenario.env_exchange 4 in
  let request := Scenario.request_of (Some "s"%string) "q4" in
  let w := Scenario.converse 3 in
  let r := chat_with_ai env request w in
  map message (Db.of_session "s" (chat_messages w))
    = ["q1"; "a1"; "q2"; "a2"; "q3"; "a3"]%string /\
  fst r = Returned {| resp_message := "a4"; resp_session_id := "s";
                      resp_image_url := None |} /\
  In (user_turn env request) (chat_messages (snd r)) /\
  prompts_of (trace (snd r)) = prompts_of (trace w) ++ [prompt env request w] /\
  prompt env request w
    = [ {| role := "system"; content := system_instruction |};
        {| role := "user"; content := "q1" |};
        {| role := "assistant"; content := "a1" |};
        {| role := "user"; content := "q2" |};
        {| role := "assistant"; content := "a2" |};
        {| role := "user"; content := "q3" |} ] /\
  ~ In (user_turn env request) (context_window env request w).
Proof.
  cbv zeta. split; [reflexivity|]. split; [reflexivity|].
  split; [vm_compute; tauto|]. split; [reflexivity|]. split; [reflexivity|].
  intros H. apply (in_map message) in H. vm_compute in H.
  repeat (destruct H as [H|H]; [discriminate H|]). exact H.
Qed.




(** C3 (the code departs from it). The body [{message: "", session_id: ""}]
    passes validation; whatever the environment does the answer is never
    422, and with a working store and provider the answer is 200 and two
    turns are stored, the first one the empty user message. *)
Theorem empty_chat_request_is_processed :
  parse_ChatRequest Scenario.body_empty
    = Some (Scenario.request_of (Some ""%string) "") /\
  (forall env w, status (fst (post_chat env Scenario.body_empty w)) <> 422) /\
  let r := post_chat (Scenario.env_ok 1 "Where would you like to go?")
             Scenario.body_empty empty_world in
  status (fst r) = 200 /\
  map (fun d => (sender d, message d)) (chat_messages (snd r))
    = [("user", ""); ("assistant", "Where would you like to go?")]%string.
Proof.
  split; [reflexivity|]. split.
  - intros env w.
    change (post_chat env Scenario.body_empty w)
      with (respond ChatJson
              (chat_with_ai env (Scenario.request_of (Some ""%string) "") w)).
    destruct (chat_status env (Scenario.request_of (Some ""%string) "") w)
      as [H|H]; cbv zeta in H; rewrite H; discriminate.
  - split; reflexivity.
Qed.

(** C4, as amended. A request in which at least one trip field is truthy (a
    non-empty text, a traveler count other than 0), on a working store: the
    handler sends the provider one prompt of [2 + min(5, stored_count)]
    entries; the last entry is a system entry whose text carries the four
    labels, each followed by the field's value, by "not specified" for a text
    field that is absent or empty, and by 1 for a traveler count that is
    absent or 0. *)
Theorem prompt_with_trip_context env request w :
  has_trip_context request = true ->
  insert_user_fault env = None -> find_fault env = None ->
  prompts_of (trace (snd (chat_with_ai env request w)))
    = prompts_of (trace w) ++ [prompt env request w] /\
  List.length (prompt env request w)
    = (2 + Nat.min 5 (stored_count env request w))%nat /\
  exists front text,
    prompt env request w = front ++ [{| role := "system"; content := text |}] /\
    occurs_in ("- Location: " ++ Py.or_str (req_location request) "not specified") text /\
    occurs_in ("- Duration: " ++ Py.or_str (req_duration request) "not specified") text /\
    occurs_in ("- Budget: " ++ Py.or_str (req_budget request) "not specified") text /\
    occurs_in ("- Travelers: " ++ Py.str_int (Py.or_int (req_travelers request) 1)) text /\
    (req_location request = None -> occurs_in "- Location: not specified" text) /\
    (req_duration request = None -> occurs_in "- Duration: not specified" text) /\
    (req_budget request = None -> occurs_in "- Budget: not specified" text) /\
    (req_travelers request = None -> occurs_in "- Travelers: 1" text).
Proof.
  intros Htrip Hu Hf. split; [now apply chat_sends_one_prompt|].
  split; [now rewrite prompt_length, Htrip|].
  unfold prompt, build_messages. rewrite Htrip.
  eexists _, (trip_context request). split; [reflexivity|].
  pose proof (trip_context_location request) as Hl.
  pose proof (trip_context_duration request) as Hd.
  pose proof (trip_context_budget request) as Hb.
  pose proof (trip_context_travelers request) as Ht.
  repeat split; trivial; intros E; rewrite E in *; assumption.
Qed.

Lemma prompt_with_trip_context_witness :
  has_trip_context Scenario.request_paris = true /\
  insert_user_fault (Scenario.env_ok 1 "Bonjour") = None /\
  find_fault (Scenario.env_ok 1 "Bonjour") = None /\
  List.length
    (prompt (Scenario.env_ok 1 "Bonjour") Scenario.request_paris empty_world)
  = 3%nat.
Proof.
  do 3 (split; [reflexivity|]).
  exact (proj1 (proj2 (prompt_with_trip_context
                         (Scenario.env_ok 1 "Bonjour") Scenario.request_paris
                         empty_world eq_refl eq_refl eq_refl))).
Defined.

(** C4 as stated fails: a location that is present but empty does not count
    as a trip field, and the prompt has one entry less. *)
Lemma trip_field_present_but_empty :
  req_location Scenario.request_blank_location <> None /\
  prompts_of
    (trace (snd (chat_with_ai (Scenario.env_ok 1 "Hi")
                   Scenario.request_blank_location empty_world)))
  = [prompt (Scenario.env_ok 1 "Hi") Scenario.request_blank_location empty_world] /\
  List.length
    (prompt (Scenario.env_ok 1 "Hi") Scenario.request_blank_location empty_world)
  <> (2 + Nat.min 5
            (stored_count (Scenario.env_ok 1 "Hi")
               Scenario.request_blank_location empty_world))%nat.
Proof.
  split; [discriminate|]. split; [reflexivity|]. vm_compute. discriminate.
Qed.

(** C5. A request without trip fields, on a working store: the handler sends
    the provider one prompt of [1 + min(5, stored_count)] entries, and its
    first entry is the system entry with the fixed instruction. *)
Theorem prompt_without_trip_fields env request w :
  req_budget request = None -> req_location request = None ->
  req_duration request = None -> req_travelers request = None ->
  insert_user_fault env = None -> find_fault env = None ->
  prompts_of (trace (snd (chat_with_ai env request w)))
    = prompts_of (trace w) ++ [prompt env request w] /\
  List.length (prompt env request w)
    = (1 + Nat.min 5 (stored_count env request w))%nat /\
  hd_error (prompt env request w)
    = Some {| role := "system";
              content := "You are a helpful travel assistant. Always give unique, personalized plans." |}.
Proof.
  intros Hb Hl Hd Ht Hu Hf. split; [now apply chat_sends_one_prompt|].
  assert (Hno : has_trip_context request = false).
  { unfold has_trip_context. now rewrite Hb, Hl, Hd, Ht. }
  split.
  - now rewrite prompt_length, Hno.
  - unfold prompt, build_messages. now rewrite Hno.
Qed.


Lemma prompt_without_trip_fields_witness :
  req_budget (Scenario.request_of None "Hello") = None /\
  req_location (Scenario.request_of None "Hello") = None /\
  req_duration (Scenario.request_of None "Hello") = None /\
  req_travelers (Scenario.request_of None "Hello") = None /\
  insert_user_fault (Scenario.env_ok 1 "Hi") = None /\
  find_fault (Scenario.env_ok 1 "Hi") = None /\
  List.length
    (prompt (Scenario.env_ok 1 "Hi") (Scenario.request_of None "Hello")
       (Scenario.converse 3))
  = 2%nat.
Proof.
  do 6 (split; [reflexivity|]).
  exact (proj1 (proj2 (prompt_without_trip_fields
                         (Scenario.env_ok 1 "Hi")
                         (Scenario.request_of None "Hello")
                         (Scenario.converse 3)
                         eq_refl eq_refl eq_refl eq_refl eq_refl eq_refl))).
Defined.

(** C6 as stated fails: the detail sent to the caller contains the text of
    the provider's exception, so no single message is reported for every
    failure. *)
Lemma chat_failure_detail_exposes_cause :
  payload
    (fst (post_chat
            (Scenario.env_gateway_down 1 "Incorrect API key provided: sk-test")
            (Scenario.body_of None "Hello") empty_world))
  = DetailJson "Chat processing failed: Incorrect API key provided: sk-test" /\
  ~ (exists generic,
        forall env body w,
          status (fst (post_chat env body w)) = 500 ->
          payload (fst (post_chat env body w)) = DetailJson generic).
Proof.
  split; [reflexivity|]. intros (generic & H).
  pose proof (H (Scenario.env_gateway_down 1 "Incorrect API key provided: sk-test")
                (Scenario.body_of None "Hello") empty_world eq_refl) as H1.
  pose proof (H (Scenario.env_gateway_down 1 "Connection error.")
                (Scenario.body_of None "Hello") empty_world eq_refl) as H2.
  vm_compute in H1, H2. congruence.
Qed.

(** C6, as amended. Whenever the [try] block of the chat handler raises, the
    caller gets status 500 with the detail "Chat processing failed: "
    followed by the text of the exception, and the same text is logged after
    "Chat error: ". *)
Theorem chat_failure_reports_cause env body request w cause w0 :
  parse_ChatRequest body = Some request ->
  chat_try env request w = (Raised cause, w0) ->
  post_chat env body w
  = ({| status := 500;
        payload := DetailJson ("Chat processing failed: " ++ str_exn cause) |},
     {| chat_messages := chat_messages w0;
        trace := trace w0 ++ [EvLogError ("Chat error: " ++ str_exn cause)] |}).
Proof.
  intros Hparse Htry. unfold post_chat. rewrite Hparse.
  now rewrite chat_with_ai_try, Htry.
Qed.

Lemma chat_failure_reports_cause_witness :
  parse_ChatRequest (Scenario.body_of None "Hello")
    = Some (Scenario.request_of None "Hello") /\
  fst (chat_try (Scenario.env_gateway_down 1 "Connection error.")
         (Scenario.request_of None "Hello") empty_world)
    = Raised (OpenAIError "Connection error.") /\
  fst (post_chat (Scenario.env_gateway_down 1 "Connection error.")
         (Scenario.body_of None "Hello") empty_world)
    = {| status := 500;
         payload := DetailJson "Chat processing failed: Connection error." |}.
Proof.
  do 2 (split; [reflexivity|]).
  rewrite (chat_failure_reports_cause
             (Scenario.env_gateway_down 1 "Connection error.")
             (Scenario.body_of None "Hello") (Scenario.request_of None "Hello")
             empty_world (OpenAIError "Connection error.")
             (snd (chat_try (Scenario.env_gateway_down 1 "Connection error.")
                     (Scenario.request_of None "Hello") empty_world))
             eq_refl eq_refl).
  reflexivity.
Defined.

(** C7 as stated fails on its last part: after the user turn is stored, two
    failures of the provider are reported to the caller as two different
    failures, each with the provider's text, while the user turn stays in
    the collection both times. *)
Lemma chat_failure_after_user_turn_is_not_generic :
  let request := Scenario.request_of (Some "s"%string) "Hello" in
  let r1 := chat_with_ai (Scenario.env_gateway_down 1 "Rate limit reached")
              request empty_world in
  let r2 := chat_with_ai (Scenario.env_gateway_down 1 "Connection error.")
              request empty_world in
  map message (chat_messages (snd r1)) = ["Hello"%string] /\
  map message (chat_messages (snd r2)) = ["Hello"%string] /\
  fst r1 = Raised (HTTPException 500
                     "Chat processing failed: Rate limit reached") /\
  fst r2 = Raised (HTTPException 500
                     "Chat processing failed: Connection error.") /\
  fst r1 <> fst r2.
Proof.
  cbv zeta. do 4 (split; [reflexivity|]).
  vm_compute. discriminate.
Qed.

(** C7, as amended. The steps of a chat request come in one fixed order:
    store the user turn, read the window, call the provider, store the
    assistant turn, respond.  When the store works and the provider answers
    with a text, all of them are made in that order, both turns are in the
    collection and the response carries the text.  When the provider call
    fails after the user turn is stored, the calls made are the first three,
    nothing is rolled back (the user turn stays, no assistant turn is
    stored) and the caller gets one 500 whose detail is "Chat processing
    failed: " followed by the cause's text.  In every run the calls are a
    prefix of the fixed sequence, followed on failure by one log line, and
    the user turn is in the collection whenever its insert succeeded. *)
Theorem chat_step_order env request w :
  let r := chat_with_ai env request w in
  (insert_user_fault env = None -> find_fault env = None ->
   insert_ai_fault env = None ->
   forall reply more,
     completions_create env "gpt-4o-mini" (prompt env request w)
       = inr (Some reply :: more) ->
     r = (Returned {| resp_message := reply;
                      resp_session_id := chat_session_id env request;
                      resp_image_url := None |},
          {| chat_messages :=
               chat_messages w ++ [user_turn env request;
                                   assistant_turn env request reply];
             trace :=
               trace w ++ [EvInsert (user_turn env request);
                           EvFind (chat_session_id env request) 5;
                           EvCompletion "gpt-4o-mini" (prompt env request w);
                           EvInsert (assistant_turn env request reply)] |})) /\
  (insert_user_fault env = None -> find_fault env = None ->
   forall cause,
     completions_create env "gpt-4o-mini" (prompt env request w) = inl cause ->
     r = (Raised (HTTPException 500
                    ("Chat processing failed: " ++ str_exn cause)),
          {| chat_messages := chat_messages w ++ [user_turn env request];
             trace :=
               trace w ++ [EvInsert (user_turn env request);
                           EvFind (chat_session_id env request) 5;
                           EvCompletion "gpt-4o-mini" (prompt env request w);
                           EvLogError ("Chat error: " ++ str_exn cause)] |})) /\
  (forall resp,
      fst r = Returned resp ->
      trace (snd r) = trace w ++ chat_steps env request w (resp_message resp) /\
      chat_messages (snd r)
        = chat_messages w ++ [user_turn env request;
                              assistant_turn env request (resp_message resp)] /\
      resp_session_id resp = chat_session_id env request) /\
  (forall e,
      fst r = Raised e ->
      exists cause reply done,
        e = HTTPException 500 ("Chat processing failed: " ++ str_exn cause) /\
        (1 <= done <= 4)%nat /\
        trace (snd r)
          = trace w ++ firstn done (chat_steps env request w reply)
                    ++ [EvLogError ("Chat error: " ++ str_exn cause)] /\
        chat_messages (snd r)
          = match insert_user_fault env with
            | Some _ => chat_messages w
            | None => chat_messages w ++ [user_turn env request]
            end).
Proof.
  cbv zeta.
  destruct (chat_with_ai_cases env request w)
    as [(resp & w1 & R & E)|(cause & w0 & R & E)]; rewrite E; clear E.
  - inversion R as [| | | | | |reply rest Hu Hf Hc Ha]; subst.
    split; [|split; [|split]].
    + intros _ _ _ reply' more Hc'. fold chat_model in Hc'.
      rewrite Hc in Hc'. inversion Hc'; subst. reflexivity.
    + intros _ _ cause Hc'. fold chat_model in Hc'. congruence.
    + intros resp' H. simpl in H. inversion H; subst. simpl. auto.
    + intros e' H. discriminate H.
  - split; [|split; [|split]].
    + intros Hu Hf Ha reply more Hc. fold chat_model in Hc.
      inversion R; subst; congruence.
    + intros Hu Hf cause' Hc. fold chat_model in Hc.
      inversion R; subst; try congruence.
      assert (cause = cause') as -> by congruence.
      unfold chat_failure, logged. cbn [chat_messages trace].
      rewrite <- app_assoc. reflexivity.
    + intros resp' H. discriminate H.
    + intros e' H. simpl in H. inversion H; subst; clear H. exists cause.
      inversion R as [m Hu|m Hu Hf|e Hu Hf Hc|Hu Hf Hc|rest Hu Hf Hc
                      |reply rest m Hu Hf Hc Ha|]; subst; clear R;
        rewrite Hu; unfold logged, chat_failure; cbn [chat_messages trace].
      * exists ""%string, 1%nat. rewrite <- app_assoc. repeat split; auto.
      * exists ""%string, 2%nat. rewrite <- app_assoc. repeat split; auto.
      * exists ""%string, 3%nat. rewrite <- app_assoc. repeat split; auto.
      * exists ""%string, 3%nat. rewrite <- app_assoc. repeat split; auto.
      * exists ""%string, 3%nat. rewrite <- app_assoc. repeat split; auto.
      * exists reply, 4%nat. rewrite <- app_assoc. repeat split; auto.
Qed.

Lemma chat_step_order_witness :
  (let env := Scenario.env_ok 1 "Bonjour" in
   let request := Scenario.request_of (Some "s"%string) "Hello" in
   fst (chat_with_ai env request empty_world)
     = Returned {| resp_message := "Bonjour"; resp_session_id := "s";
                   resp_image_url := None |} /\
   map message (chat_messages (snd (chat_with_ai env request empty_world)))
     = ["Hello"; "Bonjour"]%string) /\
  (let env := Scenario.env_gateway_down 1 "Connection error." in
   let request := Scenario.request_of (Some "s"%string) "Hello" in
   fst (chat_with_ai env request empty_world)
     = Raised (HTTPException 500 "Chat processing failed: Connection error.") /\
   map message (chat_messages (snd (chat_with_ai env request empty_world)))
     = ["Hello"%string]).
Proof.
  split; cbv zeta.
  - rewrite (proj1 (chat_step_order (Scenario.env_ok 1 "Bonjour")
                      (Scenario.request_of (Some "s"%string) "Hello")
                      empty_world)
               eq_refl eq_refl eq_refl "Bonjour"%string [] eq_refl).
    split; reflexivity.
  - rewrite (proj1 (proj2 (chat_step_order
                             (Scenario.env_gateway_down 1 "Connection error.")
                             (Scenario.request_of (Some "s"%string) "Hello")
                             empty_world))
               eq_refl eq_refl (OpenAIError "Connection error.") eq_refl).
    split; reflexivity.
Defined.




(** C9. A request whose [session_id] is the empty string is handled exactly
    as the same request without [session_id].  The session id is the string
    of a new [uuid4]: it is not empty, and another draw of random bytes
    gives the same id exactly when it agrees with this one on all 122 bits
    that [uuid4] keeps.  That id is the one
    returned, every turn the request stores carries it, the user turn is
    stored under it as soon as its insert succeeds, and when store and
    provider work the answer is 200 with that id and both turns are stored
    under it. *)
Theorem empty_session_id_is_replaced env body w :
  body_session_id body = Value ""%string ->
  let fresh := Py.str_uuid (Py.uuid4 (urandom_session env)) in
  let absent := {| body_message := body_message body;
                   body_session_id := Absent;
                   body_budget := body_budget body;
                   body_location := body_location body;
                   body_duration := body_duration body;
                   body_travelers := body_travelers body |} in
  let r := post_chat env body w in
  fresh <> ""%string /\
  (forall urandom,
      Py.str_uuid (Py.uuid4 urandom) = fresh <->
      (forall n,
          (n < 128)%N -> n <> 62%N -> n <> 63%N -> n <> 76%N -> n <> 77%N ->
          n <> 78%N -> n <> 79%N ->
          N.testbit urandom n = N.testbit (urandom_session env) n)) /\
  r = post_chat env absent w /\
  (forall resp, payload (fst r) = ChatJson resp -> resp_session_id resp = fresh) /\
  (exists new,
      chat_messages (snd r) = chat_messages w ++ new /\
      Forall (fun d => session_id d = fresh) new) /\
  (forall request,
      parse_ChatRequest body = Some request ->
      insert_user_fault env = None ->
      exists later,
        chat_messages (snd r)
        = chat_messages w
          ++ {| id := Py.str_uuid (Py.uuid4 (urandom_user env));
                session_id := fresh;
                message := req_message request;
                sender := "user";
                timestamp := now_user env |} :: later) /\
  (forall request reply more,
      parse_ChatRequest body = Some request ->
      insert_user_fault env = None -> find_fault env = None ->
      insert_ai_fault env = None ->
      completions_create env "gpt-4o-mini" (prompt env request w)
        = inr (Some reply :: more) ->
      fst r = {| status := 200;
                 payload := ChatJson {| resp_message := reply;
                                        resp_session_id := fresh;
                                        resp_image_url := None |} |} /\
      chat_messages (snd r)
      = chat_messages w
        ++ [ {| id := Py.str_uuid (Py.uuid4 (urandom_user env));
                session_id := fresh;
                message := req_message request;
                sender := "user";
                timestamp := now_user env |};
             {| id := Py.str_uuid (Py.uuid4 (urandom_ai env));
                session_id := fresh;
                message := reply;
                sender := "assistant";
                timestamp := now_ai env |} ]).
Proof.
  intros Hsid. cbv zeta. split; [apply str_uuid_nonempty|].
  split; [intros urandom; apply str_uuid4_same|].
  destruct body as [m sid b l d t]. simpl in Hsid. subst sid.
  cbn [body_message body_budget body_location body_duration body_travelers].
  unfold post_chat. rewrite parse_ChatRequest_empty_session.
  destruct (parse_ChatRequest
              {| body_message := m; body_session_id := Absent;
                 body_budget := b; body_location := l; body_duration := d;
                 body_travelers := t |}) as [plain|] eqn:Eplain.
  2:{ split; [reflexivity|]. split; [discriminate|]. split.
      - exists []. now rewrite app_nil_r.
      - split; intros; discriminate. }
  set (request := {| req_message := req_message plain;
                     req_session_id := Some ""%string;
                     req_budget := req_budget plain;
                     req_location := req_location plain;
                     req_duration := req_duration plain;
                     req_travelers := req_travelers plain |}).
  assert (Hfresh : chat_session_id env request
                   = Py.str_uuid (Py.uuid4 (urandom_session env)))
    by reflexivity.
  assert (Hnone : req_session_id plain = None).
  { apply parse_ChatRequest_fields in Eplain.
    destruct Eplain as (_ & Hs & _). simpl in Hs. congruence. }
  split.
  { subst request. destruct plain as [pm ps pb pl pd pt]. simpl in Hnone.
    subst ps. reflexivity. }
  split; [|split; [|split]].
  - destruct (chat_with_ai_cases env request w)
      as [(resp & w1 & R & E)|(cause & w0 & R & E)]; rewrite E; simpl;
      [|discriminate].
    intros resp' H. inversion H; subst resp'. inversion R; subst.
    exact Hfresh.
  - destruct (chat_store_grows env request w) as (new & Hnew & Hshape).
    exists new. split.
    + unfold respond.
      destruct (chat_with_ai env request w) as [[a|[]] w1]; exact Hnew.
    + rewrite <- Hfresh.
      destruct Hshape as [->|[->|(reply & ->)]]; repeat constructor.
  - intros request' Hreq Hu. inversion Hreq; subst request'.
    destruct (chat_with_ai_cases env request w)
      as [(resp & w1 & R & E)|(cause & w0 & R & E)]; rewrite E; clear E;
      inversion R; subst; try congruence; cbn [respond snd chat_messages logged];
      eexists; reflexivity.
  - intros request' reply more Hreq Hu Hf Ha Hc. inversion Hreq; subst request'.
    fold chat_model in Hc.
    destruct (chat_with_ai_cases env request w)
      as [(resp & w1 & R & E)|(cause & w0 & R & E)]; rewrite E; clear E;
      inversion R; subst; try congruence.
    assert (reply0 = reply) as -> by congruence.
    split; reflexivity.
Qed.

Lemma empty_session_id_is_replaced_witness :
  body_session_id Scenario.body_empty = Value ""%string /\
  post_chat (Scenario.env_ok 1 "Hi") Scenario.body_empty empty_world
  = post_chat (Scenario.env_ok 1 "Hi") (Scenario.body_of None "") empty_world /\
  fst (post_chat (Scenario.env_ok 1 "Hi") Scenario.body_empty empty_world)
  = {| status := 200;
       payload := ChatJson {| resp_message := "Hi";
                              resp_session_id :=
                                "00000000-0000-4000-8000-000000000007";
                              resp_image_url := None |} |} /\
  map session_id
    (chat_messages
       (snd (post_chat (Scenario.env_ok 1 "Hi") Scenario.body_empty
               empty_world)))
  = ["00000000-0000-4000-8000-000000000007";
     "00000000-0000-4000-8000-000000000007"]%string.
Proof.
  split; [reflexivity|].
  pose proof (empty_session_id_is_replaced (Scenario.env_ok 1 "Hi")
                Scenario.body_empty empty_world eq_refl) as H.
  cbv zeta in H.
  destruct H as (_ & _ & Hsame & _ & _ & _ & Hrun).
  split; [exact Hsame|].
  destruct (Hrun (Scenario.request_of (Some ""%string) "") "Hi"%string []
              eq_refl eq_refl eq_refl eq_refl eq_refl) as [Hresp Hstore].
  split; [exact Hresp|]. rewrite Hstore. reflexivity.
Defined.

(** C10. The turns a chat request adds to the collection are the user turn
    (sender "user"), then possibly the assistant turn (sender "assistant"),
    and nothing else; so in every world the server can reach all stored
    senders are one of the two, and each entry of the prompt that comes from
    the stored history has role "user" or "assistant". *)
Theorem chat_turns_have_known_senders env request w :
  reachable w ->
  let r := chat_with_ai env request w in
  sender (user_turn env request) = "user"%string /\
  (forall reply, sender (assistant_turn env request reply) = "assistant"%string) /\
  (exists new,
      chat_messages (snd r) = chat_messages w ++ new /\
      (new = [] \/ new = [user_turn env request] \/
       exists reply,
         new = [user_turn env request; assistant_turn env request reply])) /\
  Forall sender_ok (chat_messages (snd r)) /\
  (prompts_of (trace (snd r)) = prompts_of (trace w) \/
   prompts_of (trace (snd r)) = prompts_of (trace w) ++ [prompt env request w]) /\
  (exists trailer,
      prompt env request w
      = {| role := "system"; content := system_instruction |}
          :: map entry_of (context_window env request w) ++ trailer) /\
  Forall role_of_turn (map entry_of (context_window env request w)).
Proof.
  intros Hw. cbv zeta. apply reachable_senders in Hw.
  split; [reflexivity|]. split; [reflexivity|].
  split; [apply chat_store_grows|]. split; [now apply chat_keeps_senders|].
  split; [apply chat_prompts|]. split.
  - unfold prompt, build_messages.
    destruct (has_trip_context request); eexists; simpl;
      [reflexivity|now rewrite app_nil_r].
  - now apply context_window_senders.
Qed.

Lemma chat_turns_have_known_senders_witness :
  reachable (Scenario.converse 3) /\
  Forall sender_ok
    (chat_messages
       (snd (chat_with_ai (Scenario.env_exchange 4)
               (Scenario.request_of (Some "s"%string) "q4")
               (Scenario.converse 3)))).
Proof.
  split; [apply converse_reachable|].
  exact (proj1 (proj2 (proj2 (proj2
           (chat_turns_have_known_senders (Scenario.env_exchange 4)
              (Scenario.request_of (Some "s"%string) "q4")
              (Scenario.converse 3) (converse_reachable 3)))))).
Defined.

(** * Further properties of the code *)

(** ** The message store *)

(** X1. The store query behind both read paths returns the [n] oldest turns
    of the session: the result is in ascending timestamp order, has at most
    [n] entries, and every turn of the session it leaves out is not earlier
    than any turn it returns. *)
Theorem query_returns_the_oldest sid n docs :
  Sorted le_timestamp (Db.query sid n docs) /\
  (List.length (Db.query sid n docs) <= n)%nat /\
  exists rest,
    Permutation (Db.of_session sid docs) (Db.query sid n docs ++ rest) /\
    forall d d',
      In d (Db.query sid n docs) -> In d' rest -> timestamp d <= timestamp d'.
Proof.
  split; [apply query_sorted|]. split.
  - rewrite query_length. lia.
  - exists (skipn n (Db.sort_timestamp (Db.of_session sid docs))). unfold Db.query.
    split.
    + rewrite firstn_skipn. apply sort_timestamp_perm.
    + apply sorted_split_le. rewrite firstn_skipn. apply sort_timestamp_sorted.
Qed.

(** X2. A chat request, whatever its outcome, changes the stored turns of
    no session but its own: every query on another session id gives what it
    gave before. *)
Theorem chat_leaves_other_sessions env request w sid n :
  sid <> chat_session_id env request ->
  Db.query sid n (chat_messages (snd (chat_with_ai env request w)))
  = Db.query sid n (chat_messages w).
Proof.
  intros Hsid. destruct (chat_store_grows env request w) as (new & -> & Hnew).
  unfold Db.query. rewrite of_session_app.
  assert (Db.of_session sid new = []) as ->; [|now rewrite app_nil_r].
  assert (Hno : String.eqb (chat_session_id env request) sid = false)
    by (apply String.eqb_neq; congruence).
  destruct Hnew as [->|[->|(reply & ->)]]; unfold Db.of_session; simpl;
    rewrite ?Hno; reflexivity.
Qed.

Lemma chat_leaves_other_sessions_witness :
  "t"%string <> chat_session_id (Scenario.env_exchange 4)
                  (Scenario.request_of (Some "s"%string) "q4") /\
  Db.query "t" 100
    (chat_messages
       (snd (chat_with_ai (Scenario.env_exchange 4)
               (Scenario.request_of (Some "s"%string) "q4")
               (Scenario.converse 3))))
  = [].
Proof.
  split; [discriminate|].
  rewrite (chat_leaves_other_sessions (Scenario.env_exchange 4)
             (Scenario.request_of (Some "s"%string) "q4")
             (Scenario.converse 3) "t" 100).
  - reflexivity.
  - discriminate.
Defined.


(** X4. [POST /api/chat] answers 422 exactly when the body fails validation:
    [message] is missing, [null] or refused by its type, or one of the five
    optional fields carries a value its type refuses.  An empty message is
    accepted.  A 422 leaves the world untouched: no store call, no provider
    call, no log line. *)
Theorem chat_validation env body w :
  (status (fst (post_chat env body w)) = 422 <->
   (forall m, body_message body <> Value m) \/
   body_session_id body = Refused \/ body_budget body = Refused \/
   body_location body = Refused \/ body_duration body = Refused \/
   body_travelers body = Refused) /\
  (status (fst (post_chat env body w)) = 422 ->
   post_chat env body w = ({| status := 422; payload := ValidationJson |}, w)) /\
  status (fst (post_chat env
                 {| body_message := Value ""; body_session_id := Absent;
                    body_budget := Absent; body_location := Absent;
                    body_duration := Absent; body_travelers := Absent |} w))
  <> 422.
Proof.
  assert (Hrun : forall request,
             status (fst (respond ChatJson (chat_with_ai env request w)))
             <> 422).
  { intros request. destruct (chat_status env request w) as [H|H];
      cbv zeta in H; rewrite H; discriminate. }
  split; [|split].
  - unfold post_chat.
    destruct (parse_ChatRequest body) as [request|] eqn:E.
    + split; [intros H; now destruct (Hrun request)|].
      apply parse_ChatRequest_fields in E.
      destruct E as (Hm & Hs & Hb & Hl & Hd & Ht).
      intros [H|[H|[H|[H|[H|H]]]]]; exfalso.
      * exact (H _ Hm).
      * rewrite H in Hs. discriminate.
      * rewrite H in Hb. discriminate.
      * rewrite H in Hl. discriminate.
      * rewrite H in Hd. discriminate.
      * rewrite H in Ht. discriminate.
    + split; [intros _|reflexivity].
      unfold parse_ChatRequest in E.
      destruct (body_message body) as [|m|];
        try (left; intros m' H; discriminate H).
      right.
      destruct (body_session_id body); [| |now left].
      all: right; destruct (body_budget body); [| |now left].
      all: right; destruct (body_location body); [| |now left].
      all: right; destruct (body_duration body); [| |now left].
      all: right; destruct (body_travelers body); [| |reflexivity].
      all: discriminate E.
  - unfold post_chat. destruct (parse_ChatRequest body) as [request|];
      [|reflexivity].
    intros H. now destruct (Hrun request).
  - apply Hrun.
Qed.

(** X5. A chat request calls the provider once when both store calls
    before it succeed, and not at all when one of them fails; no outcome
    leads to a second call. *)
Theorem provider_called_once_after_store env request w :
  prompts_of (trace (snd (chat_with_ai env request w)))
  = prompts_of (trace w)
    ++ match insert_user_fault env, find_fault env with
       | None, None => [prompt env request w]
       | _, _ => []
       end.
Proof.
  destruct (chat_with_ai_cases env request w)
    as [(resp & w1 & R & E)|(cause & w0 & R & E)]; rewrite E; clear E;
    inversion R as [m Hu|m Hu Hf|e Hu Hf Hc|Hu Hf Hc|rest Hu Hf Hc
                    |reply rest m Hu Hf Hc Ha|reply rest Hu Hf Hc Ha];
    subst; rewrite Hu, ?Hf; simpl;
    rewrite ?prompts_of_app; simpl; rewrite ?app_nil_r; reflexivity.
Qed.

(** X6. A non-empty [session_id] of the request is used as it is: it is the
    one returned, and every turn the request stores carries it. *)
Theorem given_session_id_is_kept env request w sid :
  req_session_id request = Some sid -> sid <> ""%string ->
  let r := chat_with_ai env request w in
  (forall resp, fst r = Returned resp -> resp_session_id resp = sid) /\
  exists new,
    chat_messages (snd r) = chat_messages w ++ new /\
    Forall (fun d => session_id d = sid) new.
Proof.
  intros Hreq Hsid. cbv zeta.
  assert (Hkept : chat_session_id env request = sid).
  { unfold chat_session_id, Py.or_str. rewrite Hreq.
    destruct (String.eqb_spec sid ""); [contradiction|reflexivity]. }
  split.
  - destruct (chat_with_ai_cases env request w)
      as [(resp & w1 & R & E)|(cause & w0 & R & E)]; rewrite E; simpl;
      intros resp' H; [|discriminate].
    inversion H; subst resp'. inversion R; subst. reflexivity.
  - destruct (chat_store_grows env request w) as (new & Hnew & Hshape).
    exists new. split; [exact Hnew|]. rewrite <- Hkept.
    destruct Hshape as [->|[->|(reply & ->)]]; repeat constructor.
Qed.

Lemma given_session_id_is_kept_witness :
  req_session_id (Scenario.request_of (Some "s"%string) "q4") = Some "s"%string /\
  "s"%string <> ""%string /\
  forall resp,
    fst (chat_with_ai (Scenario.env_exchange 4)
           (Scenario.request_of (Some "s"%string) "q4") (Scenario.converse 3))
    = Returned resp ->
    resp_session_id resp = "s"%string.
Proof.
  split; [reflexivity|]. split; [discriminate|].
  refine (proj1 (given_session_id_is_kept (Scenario.env_exchange 4)
                   (Scenario.request_of (Some "s"%string) "q4")
                   (Scenario.converse 3) "s" eq_refl _)).
  discriminate.
Defined.

(** X7. The prompt has between 2 and 7 entries: the system instruction, one
    to five turns of history (the turn just stored makes the session
    non-empty), and at most one trip context. *)
Theorem prompt_size_bounds env request w :
  (2 <= List.length (prompt env request w) <= 7)%nat.
Proof.
  rewrite prompt_length, stored_count_S.
  destruct (has_trip_context request); lia.
Qed.

(** X8. The history read for the prompt is in ascending timestamp order,
    has at most five turns, and holds only turns of the request's own
    session, each one already stored or the user turn of this request. *)
Theorem prompt_history_stays_in_session env request w :
  Sorted le_timestamp (context_window env request w) /\
  (List.length (context_window env request w) <= 5)%nat /\
  forall d,
    In d (context_window env request w) ->
    session_id d = chat_session_id env request /\
    (In d (chat_messages w) \/ d = user_turn env request).
Proof.
  split; [apply query_sorted|]. split.
  - rewrite context_window_length. lia.
  - intros d Hd. apply query_In in Hd. destruct Hd as [Hd Hs].
    split; [exact Hs|]. apply in_app_or in Hd.
    destruct Hd as [Hd|[<-|[]]]; auto.
Qed.

(** X9. While the session holds fewer than five turns (none of them later
    than the new one), the history of the prompt is all earlier turns in
    order followed by the message just stored. *)
Theorem new_message_closes_short_history env request w :
  Forall (fun d => timestamp d <= now_user env)
    (Db.of_session (chat_session_id env request) (chat_messages w)) ->
  (List.length (Db.of_session (chat_session_id env request) (chat_messages w))
   < 5)%nat ->
  context_window env request w
  = Db.sort_timestamp
      (Db.of_session (chat_session_id env request) (chat_messages w))
    ++ [user_turn env request].
Proof.
  intros Hold Hn. rewrite context_window_sorted_last by assumption.
  apply firstn_all2. rewrite length_app, sort_timestamp_length. simpl. lia.
Qed.

Lemma new_message_closes_short_history_witness :
  map message
    (context_window (Scenario.env_exchange 2)
       (Scenario.request_of (Some "s"%string) "q2") (Scenario.converse 1))
  = ["q1"; "a1"; "q2"]%string.
Proof.
  rewrite (new_message_closes_short_history (Scenario.env_exchange 2)
             (Scenario.request_of (Some "s"%string) "q2") (Scenario.converse 1)).
  - reflexivity.
  - repeat constructor; simpl; lia.
  - simpl. lia.
Defined.

(** X10. Once the session holds five turns or more (none of them later than
    the new one), the prompt is built from the five oldest turns as they
    were before the request: the message just stored has no part in it. *)
Theorem long_history_freezes_the_prompt env request w :
  Forall (fun d => timestamp d <= now_user env)
    (Db.of_session (chat_session_id env request) (chat_messages w)) ->
  (5 <= List.length
          (Db.of_session (chat_session_id env request) (chat_messages w)))%nat ->
  prompt env request w
  = build_messages request
      (Db.query (chat_session_id env request) 5 (chat_messages w)).
Proof.
  intros Hold Hn. unfold prompt. f_equal.
  apply context_window_skips_new_turn; [assumption|].
  rewrite stored_count_S. lia.
Qed.

Lemma long_history_freezes_the_prompt_witness :
  map content
    (prompt (Scenario.env_exchange 4)
       (Scenario.request_of (Some "s"%string) "q4") (Scenario.converse 3))
  = [system_instruction; "q1"; "a1"; "q2"; "a2"; "q3"]%string.
Proof.
  rewrite (long_history_freezes_the_prompt (Scenario.env_exchange 4)
             (Scenario.request_of (Some "s"%string) "q4") (Scenario.converse 3)).
  - reflexivity.
  - repeat constructor; simpl; lia.
  - simpl. lia.
Defined.

(** ** Status checks *)

(** X11. With fewer than 1000 status records stored and a working store, a
    created record carries the client's name and the clock's time, is
    appended to the collection, and the list read next is the earlier
    records followed by it. *)
Theorem status_created_then_listed env env' name docs :
  Status.insert_fault env = None -> Status.find_fault env' = None ->
  (List.length docs < 1000)%nat ->
  exists record,
    Status.post_status env (Some name) docs
      = (Status.Created record, docs ++ [record]) /\
    Status.client_name record = name /\
    Status.timestamp record = Status.utcnow env /\
    Status.get_status env' (docs ++ [record])
      = (Status.Listed (docs ++ [record]), docs ++ [record]).
Proof.
  intros Hi Hf Hn.
  unfold Status.post_status, Status.create_status_check, Status.get_status,
    Status.get_status_checks.
  rewrite Hi, Hf. eexists. split; [reflexivity|].
  split; [reflexivity|]. split; [reflexivity|].
  rewrite firstn_all2; [reflexivity|].
  rewrite length_app. simpl. lia.
Qed.

Lemma status_created_then_listed_witness :
  exists record,
    Status.post_status
      {| Status.urandom := 1; Status.utcnow := 5;
         Status.insert_fault := None; Status.find_fault := None |}
      (Some "test_client"%string) []
    = (Status.Created record, [record]) /\
    Status.client_name record = "test_client"%string.
Proof.
  destruct (status_created_then_listed
              {| Status.urandom := 1; Status.utcnow := 5;
                 Status.insert_fault := None; Status.find_fault := None |}
              {| Status.urandom := 1; Status.utcnow := 5;
                 Status.insert_fault := None; Status.find_fault := None |}
              "test_client" [] eq_refl eq_refl)
    as (record & Hpost & Hname & _).
  - simpl. lia.
  - exists record. split; [exact Hpost|exact Hname].
Defined.

(** X12. With 1000 status records or more stored, creating a record (or
    failing to) does not change what [GET /api/status] answers: only the
    first 1000 records are ever listed. *)
Theorem status_list_saturates env env' body docs :
  (1000 <= List.length docs)%nat ->
  fst (Status.get_status env' (snd (Status.post_status env body docs)))
  = fst (Status.get_status env' docs).
Proof.
  intros Hn.
  unfold Status.post_status, Status.create_status_check, Status.get_status,
    Status.get_status_checks.
  destruct body as [name|]; [|reflexivity].
  destruct (Status.insert_fault env); cbn [fst snd]; [reflexivity|].
  destruct (Status.find_fault env'); cbn [fst snd]; [reflexivity|].
  f_equal. rewrite firstn_app. replace (1000 - List.length docs)%nat with 0%nat by lia.
  cbn [firstn]. now rewrite app_nil_r.
Qed.

Lemma status_list_saturates_witness :
  let record := {| Status.id := "i"; Status.client_name := "c";
                   Status.timestamp := 0 |} in
  let env := {| Status.urandom := 1; Status.utcnow := 5;
                Status.insert_fault := None; Status.find_fault := None |} in
  (1000 <= List.length (repeat record 1000))%nat /\
  fst (Status.get_status env
         (snd (Status.post_status env (Some "late"%string)
                 (repeat record 1000))))
  = fst (Status.get_status env (repeat record 1000)).
Proof.
  cbv zeta. split; [rewrite repeat_length; lia|].
  apply status_list_saturates. rewrite repeat_length. lia.
Defined.

(** ** Image generation *)

(** What [post_image] does, case by case. *)
Lemma post_image_cases env body w :
  let r := post_image env body w in
  chat_messages (snd r) = chat_messages w /\
  match parse_ImageRequest body with
  | None => r = (ImageInvalid, w)
  | Some request =>
      match images_generate env "dall-e-3" (ireq_prompt request) "1024x1024" with
      | inr (Some b64 :: _) =>
          r = (ImageOk {| iresp_image_base64 := b64;
                          iresp_session_id := ireq_session_id request |}, w)
      | other =>
          let cause := match other with
                       | inl e => e
                       | inr [] => IndexError "list index out of range"
                       | inr _ => ValidationError (image_validation_text env)
                       end in
          r = (ImageError 500 ("Image generation failed: " ++ str_exn cause),
               {| chat_messages := chat_messages w;
                  trace := trace w
                           ++ [EvLogError ("Image generation error: "
                                           ++ str_exn cause)] |})
      end
  end.
Proof.
  cbv zeta. unfold post_image.
  destruct (parse_ImageRequest body) as [request|]; [|now split].
  unfold generate_trip_image, try_except, image_try, image_except,
    first_choice, bind, ret, raise, emit.
  destruct w as [docs tr].
  destruct (images_generate env _ _ _) as [e|[|[b64|] rest]]; simpl;
    split; reflexivity.
Qed.

(** X13. The image endpoint never touches the stored turns.  A body without
    [prompt] or [session_id] is refused untouched; when the provider's first
    datum carries an image the answer is that image with the request's
    session id, and nothing is logged; in every other case (provider error,
    no datum, datum without image) the answer is 500 with "Image generation
    failed: " and the cause's text, and one line is logged. *)
Theorem image_request_outcomes env body w :
  let r := post_image env body w in
  chat_messages (snd r) = chat_messages w /\
  match parse_ImageRequest body with
  | None => r = (ImageInvalid, w)
  | Some request =>
      match images_generate env "dall-e-3" (ireq_prompt request) "1024x1024" with
      | inr (Some b64 :: _) =>
          r = (ImageOk {| iresp_image_base64 := b64;
                          iresp_session_id := ireq_session_id request |}, w)
      | other =>
          let cause := match other with
                       | inl e => e
                       | inr [] => IndexError "list index out of range"
                       | inr _ => ValidationError (image_validation_text env)
                       end in
          r = (ImageError 500 ("Image generation failed: " ++ str_exn cause),
               {| chat_messages := chat_messages w;
                  trace := trace w
                           ++ [EvLogError ("Image generation error: "
                                           ++ str_exn cause)] |})
      end
  end.
Proof. apply post_image_cases. Qed.

(** X14. [POST /api/generate-trip-image] answers 422 exactly when [prompt]
    or [session_id] is missing, [null] or refused by its type; empty strings
    are accepted for both. *)
Theorem image_validation env body w :
  (image_status (fst (post_image env body w)) = 422
   <-> ((forall p, ibody_prompt body <> Value p) \/
        (forall sid, ibody_session_id body <> Value sid))) /\
  image_status
    (fst (post_image env {| ibody_prompt := Value "";
                            ibody_session_id := Value "" |} w))
  <> 422.
Proof.
  assert (Hrun : forall p sid,
             image_status
               (fst (post_image env {| ibody_prompt := Value p;
                                       ibody_session_id := Value sid |} w))
             <> 422).
  { intros p sid.
    pose proof (post_image_cases env {| ibody_prompt := Value p;
                                        ibody_session_id := Value sid |} w)
      as [_ H].
    cbv zeta in H. cbn [parse_ImageRequest ibody_prompt ibody_session_id] in H.
    destruct (images_generate env _ _ _) as [e|[|[b64|] rest]];
      cbv zeta in H; rewrite H; discriminate. }
  split; [|apply Hrun].
  destruct body as [[|p|] [|sid|]];
    cbn [ibody_prompt ibody_session_id];
    try (split; [intros _|reflexivity];
         ((left; intros ? H; discriminate H)
          || (right; intros ? H; discriminate H))).
  split.
  - intros H. now destruct (Hrun p sid).
  - intros [H|H]; exfalso; [exact (H p eq_refl)|exact (H sid eq_refl)].
Qed.

(** ** Splitting and stripping *)

Section Strings.

Import PyStr.

Lemma split_not_nil sep s : split sep s <> [].
Proof.
  destruct s as [|c r]; simpl; [discriminate|].
  destruct (Ascii.eqb c sep); [discriminate|].
  destruct (split sep r); discriminate.
Qed.

Lemma split_length sep s :
  List.length (split sep s) = S (count_char sep s).
Proof.
  induction s as [|c r IH]; simpl; [reflexivity|].
  destruct (Ascii.eqb c sep); simpl; [now rewrite IH|].
  pose proof (split_not_nil sep r) as Hne.
  destruct (split sep r) as [|piece pieces]; [contradiction|exact IH].
Qed.

Lemma split_pieces_clean sep s :
  Forall (fun piece => count_char sep piece = 0%nat) (split sep s).
Proof.
  induction s as [|c r IH]; simpl; [repeat constructor|].
  destruct (Ascii.eqb c sep) eqn:E; [now constructor|].
  destruct (split sep r) as [|piece pieces]; simpl.
  - repeat constructor. simpl. now rewrite E.
  - inversion IH; subst. constructor; [|assumption]. simpl. now rewrite E.
Qed.

Lemma split_concat sep s :
  String.concat (String sep EmptyString) (split sep s) = s.
Proof.
  induction s as [|c r IH]; simpl; [reflexivity|].
  destruct (Ascii.eqb_spec c sep) as [->|Hc].
  - pose proof (split_not_nil sep r) as Hne.
    destruct (split sep r) as [|piece pieces]; [contradiction|].
    simpl. simpl in IH. now rewrite IH.
  - pose proof (split_not_nil sep r) as Hne.
    destruct (split sep r) as [|piece [|next pieces]]; [contradiction| |];
      simpl in *; now rewrite IH.
Qed.

Lemma lstrip_first s c :
  first_char (lstrip s) = Some c -> is_space c = false.
Proof.
  induction s as [|x r IH]; simpl; [discriminate|].
  destruct (is_space x) eqn:E; [exact IH|].
  simpl. intros H. now inversion H; subst.
Qed.

Lemma rstrip_last s c :
  last_char (rstrip s) = Some c -> is_space c = false.
Proof.
  induction s as [|x r IH]; simpl; [discriminate|].
  destruct (rstrip r) as [|k kept] eqn:E.
  - destruct (is_space x) eqn:Ex; simpl; [discriminate|].
    intros H. now inversion H; subst.
  - exact IH.
Qed.

Lemma rstrip_first s c :
  first_char (rstrip s) = Some c -> first_char s = Some c.
Proof.
  destruct s as [|x r]; simpl; [discriminate|].
  destruct (rstrip r); [destruct (is_space x)|]; simpl; trivial; discriminate.
Qed.

Lemma lstrip_count c s : (count_char c (lstrip s) <= count_char c s)%nat.
Proof.
  induction s as [|x r IH]; simpl; [lia|].
  destruct (is_space x); simpl; lia.
Qed.

Lemma rstrip_count c s : (count_char c (rstrip s) <= count_char c s)%nat.
Proof.
  induction s as [|x r IH]; simpl; [lia|].
  destruct (rstrip r) as [|k kept]; [destruct (is_space x)|]; simpl in *; lia.
Qed.

Lemma strip_count c s : (count_char c (strip s) <= count_char c s)%nat.
Proof.
  unfold strip. pose proof (rstrip_count c (lstrip s)).
  pose proof (lstrip_count c s). lia.
Qed.

Lemma lstrip_no_space s : has_space s = false -> lstrip s = s.
Proof.
  destruct s as [|x r]; simpl; [reflexivity|].
  intros H. apply orb_false_elim in H. destruct H as [-> _]. reflexivity.
Qed.

Lemma rstrip_no_space s : has_space s = false -> rstrip s = s.
Proof.
  induction s as [|x r IH]; simpl; [reflexivity|].
  intros H. apply orb_false_elim in H. destruct H as [Hx Hr].
  rewrite (IH Hr), Hx. now destruct r.
Qed.

Lemma strip_no_space s : has_space s = false -> strip s = s.
Proof.
  intros H. unfold strip. rewrite (lstrip_no_space _ H).
  now apply rstrip_no_space.
Qed.

Lemma split_no_space sep s :
  has_space s = false -> Forall (fun piece => has_space piece = false) (split sep s).
Proof.
  induction s as [|c r IH]; simpl; [repeat constructor|].
  intros H. apply orb_false_elim in H. destruct H as [Hc Hr].
  specialize (IH Hr).
  destruct (Ascii.eqb c sep); [now constructor|].
  destruct (split sep r) as [|piece pieces]; simpl.
  - repeat constructor. simpl. now rewrite Hc.
  - inversion IH; subst. constructor; [|assumption]. simpl.
    now rewrite Hc.
Qed.

End Strings.

(** X15. The list of allowed origins has one entry more than the setting has
    commas: it is never empty, and an empty setting gives one empty
    origin. *)
Theorem allowed_origins_count origins :
  List.length (allowed_origins origins) = S (PyStr.count_char "," origins) /\
  allowed_origins "" = [""%string].
Proof.
  split; [|reflexivity]. unfold allowed_origins.
  destruct (String.eqb_spec origins "*") as [->|_]; [reflexivity|].
  now rewrite length_map, split_length.
Qed.

(** X16. No allowed origin starts or ends with white space, and none contains
    a comma. *)
Theorem allowed_origins_are_stripped origins origin :
  In origin (allowed_origins origins) ->
  (forall c, PyStr.first_char origin = Some c -> PyStr.is_space c = false) /\
  (forall c, PyStr.last_char origin = Some c -> PyStr.is_space c = false) /\
  PyStr.count_char "," origin = 0%nat.
Proof.
  unfold allowed_origins.
  destruct (String.eqb_spec origins "*") as [->|_].
  - intros [<-|[]]. repeat split; intros c H; inversion H; reflexivity.
  - intros H. apply in_map_iff in H. destruct H as (piece & <- & Hp).
    split; [|split].
    + intros c H. apply rstrip_first in H. now apply lstrip_first in H.
    + intros c H. now apply rstrip_last in H.
    + pose proof (split_pieces_clean "," origins) as Hc.
      rewrite Forall_forall in Hc. specialize (Hc piece Hp).
      pose proof (strip_count "," piece). lia.
Qed.

Lemma allowed_origins_are_stripped_witness :
  In "https://b.example"%string
    (allowed_origins "https://a.example , https://b.example ") /\
  PyStr.last_char "https://b.example" = Some "e"%char /\
  PyStr.is_space "e" = false.
Proof.
  split; [right; left; reflexivity|]. split; [reflexivity|].
  refine (proj1 (proj2 (allowed_origins_are_stripped
                          "https://a.example , https://b.example "
                          "https://b.example" _)) "e"%char eq_refl).
  right. left. reflexivity.
Defined.

(** X17. For a setting without white space, joining the allowed origins with
    commas gives the setting back. *)
Theorem allowed_origins_join origins :
  PyStr.has_space origins = false ->
  String.concat "," (allowed_origins origins) = origins.
Proof.
  intros Hs. unfold allowed_origins.
  destruct (String.eqb_spec origins "*") as [->|_]; [reflexivity|].
  rewrite <- (split_concat "," origins) at 2. f_equal.
  pose proof (split_no_space "," origins Hs) as Hp.
  induction Hp as [|piece pieces Hpiece Hrest IH]; simpl; [reflexivity|].
  now rewrite strip_no_space, IH.
Qed.

Lemma allowed_origins_join_witness :
  PyStr.has_space "https://a.example,https://b.example" = false /\
  String.concat ","
    ["https://a.example"; "https://b.example"]%string
  = "https://a.example,https://b.example"%string.
Proof.
  split; [reflexivity|].
  exact (allowed_origins_join "https://a.example,https://b.example" eq_refl).
Defined.

(** ** The test client *)

Section SuiteFacts.

Import Tester.

Variable Server : Type.
Variable send : Call -> Server -> Reply * Server.


Lemma run_test_advanced name method endpoint expected data st :
  let r := run_test Server send name method endpoint expected data st in
  advanced 1 (if fst (fst r) then 1 else 0) st (snd r) /\
  (fst (fst r) = false -> snd (fst r) = empty_dict).
Proof.
  cbv zeta. unfold run_test. destruct st as [self server].
  destruct (String.eqb method "GET");
    [|destruct (String.eqb method "POST")];
    try (match goal with |- context [send ?c server] =>
           destruct (send c server) as [[code [j|] text| |msg] server'] end;
         try destruct (code =? expected));
    unfold advanced; simpl; repeat split; auto; try lia; discriminate.
Qed.









Lemma init_fresh base stamp :
  tests_run (init base stamp) = 0%nat /\ tests_passed (init base stamp) = 0%nat /\
  api_url (init base stamp) = (base ++ "/api")%string.
Proof. repeat split. Qed.


End SuiteFacts.

(** X18. Every call of [run_test] counts one more check as run, and one more
    as passed exactly when it returns [True]; a failed check returns the
    empty dict, and a method other than GET and POST fails without calling
    the server. *)
Theorem run_test_counts (Server : Type)
    (send : Tester.Call -> Server -> Tester.Reply * Server)
    name method endpoint expected data (st : Tester.State Server) :
  let r := Tester.run_test Server send name method endpoint expected data st in
  Tester.tests_run (fst (snd r)) = S (Tester.tests_run (fst st)) /\
  Tester.tests_passed (fst (snd r))
    = (Tester.tests_passed (fst st) + if fst (fst r) then 1 else 0)%nat /\
  (fst (fst r) = false -> snd (fst r) = Tester.empty_dict) /\
  (method <> "GET"%string -> method <> "POST"%string ->
   fst (fst r) = false /\ snd (snd r) = snd st).
Proof.
  cbv zeta.
  destruct (run_test_advanced Server send name method endpoint expected data st)
    as [(Hrun & Hpassed & _) Hdata].
  split; [rewrite Hrun; lia|]. split; [exact Hpassed|]. split; [exact Hdata|].
  intros Hget Hpost. unfold Tester.run_test. destruct st as [self server].
  apply String.eqb_neq in Hget, Hpost. rewrite Hget, Hpost. now split.
Qed.



